(** * Lumber: the user service of [main.go]

    A shallow embedding of the two revisions of [main.go] (the in-memory
    service, and the service mirrored to a MongoDB collection), and the
    properties of the record store proved on it.

    Conventions.
    - Go's [int] is the 64-bit two's complement integer: a [Z] kept in range by
      [wrap], which is applied wherever the source does arithmetic.
    - Every handler runs its body under [mu.Lock()] / [defer mu.Unlock()], so a
      handler is an atomic transition on the package-level variables [users]
      and [nextID]; it is a function from the state before to the outcome and
      the state after.
    - Response headers are not modelled; a response is its status and body. *)

From Stdlib Require Import ZArith List String Ascii Bool Lia Sorted.
Import ListNotations.
Local Open Scope string_scope.
Local Open Scope list_scope.
Local Open Scope Z_scope.

(** ** Data model *)

(** [type User struct { ID int; Name string; Age int }] *)
Record User : Type := mkUser { ID : Z; Name : string; Age : Z }.

Definition min_int : Z := -9223372036854775808.
Definition max_int : Z := 9223372036854775807.

(** Two's complement wrap-around of a 64-bit [int]. *)
Definition wrap (z : Z) : Z := (z - min_int) mod 18446744073709551616 + min_int.

(** [n++] on an [int]. *)
Definition incr (n : Z) : Z := wrap (n + 1).

(** ** [strconv.Atoi]

    An optional sign followed by one or more decimal digits, whose value fits in
    an [int]; anything else is an error ([None]). *)
Definition digit_of (c : ascii) : option Z :=
  let n := Z.of_N (N_of_ascii c) in
  if (48 <=? n) && (n <=? 57) then Some (n - 48) else None.

Fixpoint digits (s : string) (acc : Z) : option Z :=
  match s with
  | EmptyString => Some acc
  | String c rest =>
      match digit_of c with
      | Some d => digits rest (10 * acc + d)
      | None => None
      end
  end.

Definition unsigned_digits (s : string) : option Z :=
  match s with
  | EmptyString => None
  | _ => digits s 0
  end.

Definition Atoi (s : string) : option Z :=
  let magnitude :=
    match s with
    | String "-"%char rest => option_map Z.opp (unsigned_digits rest)
    | String "+"%char rest => unsigned_digits rest
    | _ => unsigned_digits s
    end in
  match magnitude with
  | Some v => if (min_int <=? v) && (v <=? max_int) then Some v else None
  | None => None
  end.

(** ** Responses *)

Definition StatusOK : Z := 200.
Definition StatusCreated : Z := 201.
Definition StatusNoContent : Z := 204.
Definition StatusBadRequest : Z := 400.
Definition StatusNotFound : Z := 404.
Definition StatusInternalServerError : Z := 500.

(** What a handler wrote: the text of [http.Error], or the value given to
    [json.NewEncoder(w).Encode], or nothing. *)
Inductive Payload : Type :=
| Text (msg : string)
| JSONUser (u : User)
| JSONUsers (us : list User)
| Empty.

Record Response : Type := mkResponse { Status : Z; Body : Payload }.

(** How the call of a handler ends: it returns after writing a response; or it
    calls [log.Fatal], which ends the process; or it panics, which [net/http]
    recovers by dropping the connection (the deferred [mu.Unlock()] runs). *)
Inductive Outcome : Type :=
| Responded (r : Response)
| Fatal
| Panicked.

(** [http.Error(w, msg, code)] *)
Definition httpError (msg : string) (code : Z) : Response := mkResponse code (Text msg).

(** The id a response reports as created: a 201 carrying a user. *)
Definition created_id (o : Outcome) : option Z :=
  match o with
  | Responded (mkResponse code (JSONUser u)) => if code =? StatusCreated then Some (ID u) else None
  | _ => None
  end.

Fixpoint created_ids (os : list Outcome) : list Z :=
  match os with
  | [] => []
  | o :: rest =>
      match created_id o with
      | Some i => i :: created_ids rest
      | None => created_ids rest
      end
  end.

(** ** Loops over [users] shared by both revisions *)

(** [for i, user := range users { if user.ID == id { ... return } }]: the index
    and value of the first record whose id is [id], scanning from index [i]. *)
Fixpoint scan (id : Z) (us : list User) (i : nat) : option (nat * User) :=
  match us with
  | [] => None
  | user :: rest => if ID user =? id then Some (i, user) else scan id rest (S i)
  end.

(** [users[i].Name = updatedUser.Name; users[i].Age = updatedUser.Age] *)
Fixpoint assign (i : nat) (updatedUser : User) (us : list User) : list User :=
  match us, i with
  | [], _ => []
  | user :: rest, O => mkUser (ID user) (Name updatedUser) (Age updatedUser) :: rest
  | user :: rest, S j => user :: assign j updatedUser rest
  end.

(** [append(users[:i], users[i+1:]...)] read as a value. *)
Definition cut (i : nat) (us : list User) : list User := firstn i us ++ skipn (S i) us.

(** ** The in-memory service (first revision of [main.go]) *)

Module InMemory.

(** The package-level variables [users] and [nextID]. *)
Record Store : Type := mkStore { users : list User; nextID : Z }.

(** [users = []User{}], [nextID = 1]. *)
Definition init : Store := mkStore [] 1.

Section Handlers.

(** [json.NewDecoder(r.Body).Decode(&user)] on a zero [User]: the decoded
    value, or [None] when [Decode] returns an error. *)
Variable Decode : string -> option User.

Definition getUsers (s : Store) : Outcome * Store :=
  (Responded (mkResponse StatusOK (JSONUsers (users s))), s).

Definition getUser (s : Store) (idStr : string) : Outcome * Store :=
  match Atoi idStr with
  | None => (Responded (httpError "Invalid ID" StatusBadRequest), s)
  | Some id =>
      match scan id (users s) 0 with
      | Some (_, user) => (Responded (mkResponse StatusOK (JSONUser user)), s)
      | None => (Responded (httpError "User not found" StatusNotFound), s)
      end
  end.

Definition createUser (s : Store) (body : string) : Outcome * Store :=
  match Decode body with
  | None => (Responded (httpError "Invalid request payload" StatusBadRequest), s)
  | Some decoded =>
      let user := mkUser (nextID s) (Name decoded) (Age decoded) in
      (Responded (mkResponse StatusCreated (JSONUser user)),
       mkStore (users s ++ [user]) (incr (nextID s)))
  end.

Definition updateUser (s : Store) (idStr body : string) : Outcome * Store :=
  match Decode body with
  | None => (Responded (httpError "Invalid request payload" StatusBadRequest), s)
  | Some updatedUser =>
      match Atoi idStr with
      | None => (Responded (httpError "Invalid ID" StatusBadRequest), s)
      | Some id =>
          match scan id (users s) 0 with
          | Some (i, _) =>
              let s' := mkStore (assign i updatedUser (users s)) (nextID s) in
              match nth_error (users s') i with
              | Some u => (Responded (mkResponse StatusOK (JSONUser u)), s')
              | None => (Panicked, s')
              end
          | None => (Responded (httpError "User not found" StatusNotFound), s)
          end
      end
  end.

Definition deleteUser (s : Store) (idStr : string) : Outcome * Store :=
  match Atoi idStr with
  | None => (Responded (httpError "Invalid ID" StatusBadRequest), s)
  | Some id =>
      match scan id (users s) 0 with
      | Some (i, _) =>
          (Responded (mkResponse StatusNoContent Empty),
           mkStore (cut i (users s)) (nextID s))
      | None => (Responded (httpError "User not found" StatusNotFound), s)
      end
  end.

(** The requests the two routes of [main] hand to a handler. *)
Inductive Request : Type :=
| GetUsers
| PostUsers (body : string)
| GetUser (idStr : string)
| PutUser (idStr body : string)
| DeleteUser (idStr : string).

Definition serve (s : Store) (r : Request) : Outcome * Store :=
  match r with
  | GetUsers => getUsers s
  | PostUsers body => createUser s body
  | GetUser idStr => getUser s idStr
  | PutUser idStr body => updateUser s idStr body
  | DeleteUser idStr => deleteUser s idStr
  end.

(** Requests served one after the other: the outcomes, in order, and the
    final store. *)
Fixpoint run (s : Store) (rs : list Request) : list Outcome * Store :=
  match rs with
  | [] => ([], s)
  | r :: rest =>
      let (o, s1) := serve s r in
      let (os, s2) := run s1 rest in
      (o :: os, s2)
  end.

(** The number of requests of [rs] that reach [nextID++]. *)
Fixpoint allocations (rs : list Request) : nat :=
  match rs with
  | [] => O
  | PostUsers body :: rest =>
      match Decode body with
      | Some _ => S (allocations rest)
      | None => allocations rest
      end
  | _ :: rest => allocations rest
  end.

End Handlers.

End InMemory.

(** ** The mirrored service (second revision of [main.go]) *)

Module Mirrored.

(** [_, err := collection.InsertOne(...)]: [err == nil], or an error whose
    [err.Error()] is [msg]. *)
Inductive InsertResult : Type :=
| InsertOK
| InsertErr (msg : string).

(** [result, err := collection.DeleteOne(ctx, filter)]: an error, or a result
    with its [DeletedCount] (an [int64]). *)
Inductive DeleteResult : Type :=
| DeleteErr
| Deleted (DeletedCount : Z).

(** A slice as the loop of [deleteUser] sees it: the backing array, over the
    indices the [range] visits, and the current length of [users]. *)
Record Slice : Type := mkSlice { array : list User; len : nat }.

Definition elems (s : Slice) : list User := firstn (len s) (array s).

(** [users = append(users[:i], users[i+1:]...)]. The expression [users[i+1:]]
    panics unless [i+1 <= len(users)]; otherwise the elements at [i+1 .. len)
    are copied down by one inside the same backing array, whose other cells
    keep their values, and the length drops by one. *)
Definition remove_at (i : nat) (s : Slice) : option Slice :=
  if (S i <=? len s)%nat then
    Some (mkSlice (firstn i (array s)
                     ++ firstn (len s - S i) (skipn (S i) (array s))
                     ++ skipn (len s - 1) (array s))
                  (len s - 1))
  else None.

(** The end of the loop: it ran through, or it panicked, with [users] as it
    then was. *)
Inductive Swept : Type :=
| Through (s : Slice)
| Panic (s : Slice).

(** [for i, user := range users { if user.ID == id { users = append(...) } }].
    [range] reads [users] once, so the loop visits the indices below the
    length [users] had on entry ([n] of them are left, from [i] on), and reads
    [user] from the backing array as the earlier iterations left it. *)
Fixpoint sweep (id : Z) (n i : nat) (s : Slice) : Swept :=
  match n with
  | O => Through s
  | S n' =>
      match nth_error (array s) i with
      | None => Panic s
      | Some user =>
          if ID user =? id then
            match remove_at i s with
            | Some s' => sweep id n' (S i) s'
            | None => Panic s
            end
          else sweep id n' (S i) s
      end
  end.

(** [users = append(users, user)] for every document of the cursor, in order. *)
Definition bulkLoad (docs us : list User) : list User :=
  fold_left (fun acc user => acc ++ [user]) docs us.

Section Handlers.

(** The collection [UsersDB.Users] and the two calls made on it. *)
Variable Mirror : Type.
Variable InsertOne : Mirror -> User -> InsertResult * Mirror.
Variable DeleteOne : Mirror -> Z -> DeleteResult * Mirror.

(** [json.NewDecoder(r.Body).Decode(&user)], as in the first revision. *)
Variable Decode : string -> option User.

(** [users], [nextID] and the collection behind [client]. *)
Record World : Type := mkWorld { users : list User; nextID : Z; mirror : Mirror }.

(** [main] up to the first request, when no call is fatal: [docs] are the
    documents the cursor yields, decoded. *)
Definition main (docs : list User) (m : Mirror) : World :=
  mkWorld (bulkLoad docs []) 1 m.

Definition getUsers (w : World) : Outcome * World :=
  (Responded (mkResponse StatusOK (JSONUsers (users w))), w).

Definition getUser (w : World) (idStr : string) : Outcome * World :=
  match Atoi idStr with
  | None => (Responded (httpError "Invalid ID" StatusBadRequest), w)
  | Some id =>
      match scan id (users w) 0 with
      | Some (_, user) => (Responded (mkResponse StatusOK (JSONUser user)), w)
      | None => (Responded (httpError "User not found" StatusNotFound), w)
      end
  end.

Definition createUser (w : World) (body : string) : Outcome * World :=
  match Decode body with
  | None => (Responded (httpError "Invalid request payload" StatusBadRequest), w)
  | Some decoded =>
      let user := mkUser (nextID w) (Name decoded) (Age decoded) in
      let next := incr (nextID w) in
      match InsertOne (mirror w) user with
      | (InsertErr msg, m) =>
          (Responded (httpError msg StatusInternalServerError), mkWorld (users w) next m)
      | (InsertOK, m) =>
          (Responded (mkResponse StatusCreated (JSONUser user)),
           mkWorld (users w ++ [user]) next m)
      end
  end.

Definition updateUser (w : World) (idStr body : string) : Outcome * World :=
  match Decode body with
  | None => (Responded (httpError "Invalid request payload" StatusBadRequest), w)
  | Some updatedUser =>
      match Atoi idStr with
      | None => (Responded (httpError "Invalid ID" StatusBadRequest), w)
      | Some id =>
          match scan id (users w) 0 with
          | Some (i, _) =>
              let w' := mkWorld (assign i updatedUser (users w)) (nextID w) (mirror w) in
              match nth_error (users w') i with
              | Some u => (Responded (mkResponse StatusOK (JSONUser u)), w')
              | None => (Panicked, w')
              end
          | None => (Responded (httpError "User not found" StatusNotFound), w)
          end
      end
  end.

Definition deleteUser (w : World) (body : string) : Outcome * World :=
  match Decode body with
  | None => (Responded (httpError "Invalid request payload" StatusBadRequest), w)
  | Some user =>
      let id := ID user in
      match DeleteOne (mirror w) id with
      | (DeleteErr, m) => (Fatal, mkWorld (users w) (nextID w) m)
      | (Deleted DeletedCount, m) =>
          if DeletedCount >? 0 then
            match sweep id (List.length (users w)) 0 (mkSlice (users w) (List.length (users w))) with
            | Through s =>
                (Responded (mkResponse StatusNoContent Empty), mkWorld (elems s) (nextID w) m)
            | Panic s => (Panicked, mkWorld (elems s) (nextID w) m)
            end
          else (Responded (httpError "User not found" StatusNotFound),
                mkWorld (users w) (nextID w) m)
      end
  end.

(** The requests the two routes of [main] hand to a handler; [DELETE /user]
    now carries the id in its body. *)
Inductive Request : Type :=
| GetUsers
| PostUsers (body : string)
| GetUser (idStr : string)
| PutUser (idStr body : string)
| DeleteUser (body : string).

Definition serve (w : World) (r : Request) : Outcome * World :=
  match r with
  | GetUsers => getUsers w
  | PostUsers body => createUser w body
  | GetUser idStr => getUser w idStr
  | PutUser idStr body => updateUser w idStr body
  | DeleteUser body => deleteUser w body
  end.

(** Requests served one after the other, until one is fatal to the process. *)
Fixpoint run (w : World) (rs : list Request) : list Outcome * World :=
  match rs with
  | [] => ([], w)
  | r :: rest =>
      match serve w r with
      | (Fatal, w1) => ([Fatal], w1)
      | (o, w1) => let (os, w2) := run w1 rest in (o :: os, w2)
      end
  end.

(** The number of requests of [rs] that reach [nextID++]. *)
Fixpoint allocations (rs : list Request) : nat :=
  match rs with
  | [] => O
  | PostUsers body :: rest =>
      match Decode body with
      | Some _ => S (allocations rest)
      | None => allocations rest
      end
  | _ :: rest => allocations rest
  end.

End Handlers.

Arguments users {Mirror} _.
Arguments nextID {Mirror} _.
Arguments mirror {Mirror} _.
Arguments mkWorld {Mirror} _ _ _.

End Mirrored.

(** ** Stand-ins for the two collaborators, to run the handlers on *)

Module Sample.

(** A decoder given by a table from request bodies to the values decoded. *)
Definition decode_in (table : list (string * User)) (body : string) : option User :=
  option_map snd (find (fun entry => String.eqb (fst entry) body) table).

Definition bodies : list (string * User) :=
  [ ("{id:7,name:Ann,age:30}", mkUser 7 "Ann" 30);
    ("{name:Bob,age:41}", mkUser 0 "Bob" 41);
    ("{id:1}", mkUser 1 "" 0);
    ("{name:Ann,age:31}", mkUser 0 "Ann" 31) ].

Definition Decode : string -> option User := decode_in bodies.

(** A collection that keeps its documents in a list, and fails every call
    while it is unreachable. *)
Record Collection : Type := mkCollection { docs : list User; reachable : bool }.

Definition InsertOne (c : Collection) (user : User) : Mirrored.InsertResult * Collection :=
  if reachable c then (Mirrored.InsertOK, mkCollection (docs c ++ [user]) true)
  else (Mirrored.InsertErr "server selection error", c).

Definition DeleteOne (c : Collection) (id : Z) : Mirrored.DeleteResult * Collection :=
  if reachable c then
    match scan id (docs c) 0 with
    | Some (i, _) => (Mirrored.Deleted 1, mkCollection (cut i (docs c)) true)
    | None => (Mirrored.Deleted 0, c)
    end
  else (Mirrored.DeleteErr, c).

(** A collection with an outage: it takes the first insert, fails every insert
    after it until [max_int] of them have been attempted, and takes them again
    from then on. It holds the documents it took and counts the attempts. *)
Record Outage : Type := mkOutage { kept : list User; attempts : Z }.

Definition OutageInsertOne (c : Outage) (user : User) : Mirrored.InsertResult * Outage :=
  if (attempts c =? 0) || (max_int <=? attempts c)
  then (Mirrored.InsertOK, mkOutage (kept c ++ [user]) (attempts c + 1))
  else (Mirrored.InsertErr "server selection error", mkOutage (kept c) (attempts c + 1)).

Definition OutageDeleteOne (c : Outage) (id : Z) : Mirrored.DeleteResult * Outage :=
  match scan id (kept c) 0 with
  | Some (i, _) => (Mirrored.Deleted 1, mkOutage (cut i (kept c)) (attempts c))
  | None => (Mirrored.Deleted 0, c)
  end.

End Sample.

(** ** Predicates of the statements *)

Definition other_than (id : Z) (u : User) : Prop := ID u <> id.

(** [after] is [before] with the first record of id [id] replaced, at its
    place, by [u'], which has the id of that record and the name and age of
    [upd]; every other record is as it was. *)
Definition updated_in_place (id : Z) (upd : User) (before after : list User) (u' : User) : Prop :=
  exists l1 u l2,
    before = l1 ++ u :: l2 /\ Forall (other_than id) l1 /\ ID u = id /\
    u' = mkUser (ID u) (Name upd) (Age upd) /\
    after = l1 ++ u' :: l2.

(** [us] holds exactly one record of id [id], between [l1] and [l2]. *)
Definition only_at (id : Z) (us l1 l2 : list User) : Prop :=
  exists u, us = l1 ++ u :: l2 /\ ID u = id /\ Forall (other_than id) (l1 ++ l2).

(** The records of [us] whose id is not [id], in their order. *)
Definition others (id : Z) (us : list User) : list User :=
  filter (fun u => negb (ID u =? id)) us.

(** The ids [ids] increase strictly and lie in [1 .. c). *)
Definition ids_within (c : Z) (ids : list Z) : Prop :=
  StronglySorted Z.lt ids /\ Forall (fun i => 1 <= i < c) ids.

(** The number of requests of a run that were answered with status [code]. *)
Fixpoint answered (code : Z) (os : list Outcome) : nat :=
  match os with
  | [] => O
  | Responded resp :: rest =>
      if Status resp =? code then S (answered code rest) else answered code rest
  | _ :: rest => answered code rest
  end.

(** ** The routes of [main] and the CORS middleware (second revision) *)

Module Routes.

(** What the routes read of a request: [r.Method], [r.URL.Query().Get("id")]
    and [r.Body]. *)
Record Request : Type := mkRequest { Method : string; QueryID : string; ReqBody : string }.

(** The three [w.Header().Set] of [enableCORS], on the fresh header map of a
    response. *)
Definition CORSHeaders : list (string * string) :=
  [ ("Access-Control-Allow-Origin", "*");
    ("Access-Control-Allow-Methods", "GET, POST, PUT, DELETE, OPTIONS");
    ("Access-Control-Allow-Headers", "Content-Type, Authorization") ].

Definition StatusMethodNotAllowed : Z := 405.

Section Routes.

Variable Mirror : Type.
Variable InsertOne : Mirror -> User -> Mirrored.InsertResult * Mirror.
Variable DeleteOne : Mirror -> Z -> Mirrored.DeleteResult * Mirror.
Variable Decode : string -> option User.

Definition Handler : Type := Mirrored.World Mirror -> Request -> Outcome * Mirrored.World Mirror.

(** The function registered on [/users]: [switch r.Method]. *)
Definition usersRoute : Handler :=
  fun w r =>
    if (Method r =? "GET")%string then Mirrored.getUsers Mirror w
    else if (Method r =? "POST")%string then
      Mirrored.createUser Mirror InsertOne Decode w (ReqBody r)
    else (Responded (httpError "Method not allowed" StatusMethodNotAllowed), w).

(** The function registered on [/user]. *)
Definition userRoute : Handler :=
  fun w r =>
    if (Method r =? "GET")%string then Mirrored.getUser Mirror w (QueryID r)
    else if (Method r =? "PUT")%string then
      Mirrored.updateUser Mirror Decode w (QueryID r) (ReqBody r)
    else if (Method r =? "DELETE")%string then
      Mirrored.deleteUser Mirror DeleteOne Decode w (ReqBody r)
    else (Responded (httpError "Method not allowed" StatusMethodNotAllowed), w).

(** [enableCORS(next)]: the headers set before anything else, and then either
    the answer to a preflight or what [next] does. *)
Definition enableCORS (next : Handler)
  : Mirrored.World Mirror -> Request -> list (string * string) * (Outcome * Mirrored.World Mirror) :=
  fun w r =>
    (CORSHeaders,
     if (Method r =? "OPTIONS")%string then (Responded (mkResponse StatusOK Empty), w)
     else next w r).

End Routes.

End Routes.

(** * Properties *)

(** ** The 64-bit counter *)

Lemma wrap_in_range (z : Z) : min_int <= z <= max_int -> wrap z = z.
Proof.
  intros H. unfold wrap, min_int, max_int in *.
  rewrite Z.mod_small; lia.
Qed.

Lemma wrap_wrap_succ (z : Z) : wrap (wrap z + 1) = wrap (z + 1).
Proof.
  unfold wrap.
  replace ((z - min_int) mod 18446744073709551616 + min_int + 1 - min_int)
    with ((z - min_int) mod 18446744073709551616 + 1) by lia.
  replace (z + 1 - min_int) with (z - min_int + 1) by lia.
  rewrite Z.add_mod_idemp_l by lia. reflexivity.
Qed.

Lemma incr_below_max (n : Z) : min_int <= n < max_int -> incr n = n + 1.
Proof. intros H. unfold incr. apply wrap_in_range. lia. Qed.

Lemma incr_max : incr max_int = min_int.
Proof. reflexivity. Qed.

(** ** The scan of [users] *)

Lemma scan_none (id : Z) (us : list User) :
  Forall (other_than id) us -> forall k, scan id us k = None.
Proof.
  induction 1 as [|u us Hu _ IH]; intros k; simpl.
  - reflexivity.
  - destruct (Z.eqb_spec (ID u) id) as [E|_]; [contradiction|apply IH].
Qed.

Lemma scan_first (id : Z) (l1 l2 : list User) (u : User) :
  Forall (other_than id) l1 -> ID u = id ->
  forall k, scan id (l1 ++ u :: l2) k = Some ((k + List.length l1)%nat, u).
Proof.
  intros H1 Hu. induction H1 as [|x l1 Hx _ IH]; intros k; simpl.
  - rewrite Hu, Z.eqb_refl. now rewrite Nat.add_0_r.
  - destruct (Z.eqb_spec (ID x) id) as [E|_]; [contradiction|].
    rewrite IH. now rewrite Nat.add_succ_r.
Qed.

(** A store that holds [id] splits at the first record that has it. *)
Lemma first_with_id (id : Z) (us : list User) :
  In id (map ID us) ->
  exists l1 u l2, us = l1 ++ u :: l2 /\ ID u = id /\ Forall (other_than id) l1.
Proof.
  induction us as [|x us IH]; simpl; [tauto|].
  intros Hin. destruct (Z.eq_dec (ID x) id) as [E|N].
  - exists [], x, us. auto.
  - destruct Hin as [E|Hin]; [contradiction|].
    destruct (IH Hin) as (l1 & u & l2 & -> & Hu & Hl1).
    exists (x :: l1), u, l2. repeat split; auto.
Qed.

Lemma scan_absent (id : Z) (us : list User) :
  ~ In id (map ID us) -> Forall (other_than id) us.
Proof.
  intros H. apply Forall_forall. intros x Hx E. apply H.
  rewrite <- E. now apply in_map.
Qed.

Lemma assign_at (upd u : User) (l1 l2 : list User) :
  assign (List.length l1) upd (l1 ++ u :: l2)
  = l1 ++ mkUser (ID u) (Name upd) (Age upd) :: l2.
Proof. induction l1 as [|x l1 IH]; simpl; [reflexivity|now rewrite IH]. Qed.

Lemma nth_error_at {A : Type} (l1 l2 : list A) (a : A) :
  nth_error (l1 ++ a :: l2) (List.length l1) = Some a.
Proof. induction l1; simpl; auto. Qed.

Lemma cut_at (u : User) (l1 l2 : list User) :
  cut (List.length l1) (l1 ++ u :: l2) = l1 ++ l2.
Proof.
  unfold cut. induction l1 as [|x l1 IH]; simpl; [reflexivity|].
  simpl in IH. now rewrite IH.
Qed.

(** ** Handlers of the in-memory service *)

Section InMemoryFacts.

Import InMemory.
Variable Decode : string -> option User.

Lemma getUser_first (s : Store) (idStr : string) (id : Z) (l1 l2 : list User) (u : User) :
  Atoi idStr = Some id -> users s = l1 ++ u :: l2 ->
  Forall (other_than id) l1 -> ID u = id ->
  getUser s idStr = (Responded (mkResponse StatusOK (JSONUser u)), s).
Proof.
  intros HA Hus Hl1 Hu. unfold getUser.
  now rewrite HA, Hus, (scan_first id l1 l2 u Hl1 Hu).
Qed.

Lemma getUser_absent (s : Store) (idStr : string) (id : Z) :
  Atoi idStr = Some id -> Forall (other_than id) (users s) ->
  getUser s idStr = (Responded (httpError "User not found" StatusNotFound), s).
Proof.
  intros HA Hus. unfold getUser. now rewrite HA, (scan_none id _ Hus).
Qed.

Lemma updateUser_first (s : Store) (idStr body : string) (upd : User) (id : Z)
      (l1 l2 : list User) (u : User) :
  Decode body = Some upd -> Atoi idStr = Some id -> users s = l1 ++ u :: l2 ->
  Forall (other_than id) l1 -> ID u = id ->
  updateUser Decode s idStr body
  = (Responded (mkResponse StatusOK (JSONUser (mkUser (ID u) (Name upd) (Age upd)))),
     mkStore (l1 ++ mkUser (ID u) (Name upd) (Age upd) :: l2) (nextID s)).
Proof.
  intros HD HA Hus Hl1 Hu. unfold updateUser.
  rewrite HD, HA, Hus, (scan_first id l1 l2 u Hl1 Hu). simpl.
  now rewrite assign_at, nth_error_at.
Qed.

Lemma updateUser_in_place (s : Store) (idStr body : string) (upd : User) (id : Z) :
  Decode body = Some upd -> Atoi idStr = Some id -> In id (map ID (users s)) ->
  exists u' us',
    updateUser Decode s idStr body
    = (Responded (mkResponse StatusOK (JSONUser u')), mkStore us' (nextID s))
    /\ updated_in_place id upd (users s) us' u'
    /\ getUser (mkStore us' (nextID s)) idStr
       = (Responded (mkResponse StatusOK (JSONUser u')), mkStore us' (nextID s)).
Proof.
  intros HD HA Hin.
  destruct (first_with_id id (users s) Hin) as (l1 & u & l2 & Hus & Hu & Hl1).
  exists (mkUser (ID u) (Name upd) (Age upd)), (l1 ++ mkUser (ID u) (Name upd) (Age upd) :: l2).
  split; [|split].
  - apply updateUser_first with (id := id); auto.
  - exists l1, u, l2. auto.
  - apply getUser_first with (id := id) (l1 := l1) (l2 := l2); auto.
Qed.

Lemma deleteUser_first (s : Store) (idStr : string) (id : Z) (l1 l2 : list User) (u : User) :
  Atoi idStr = Some id -> users s = l1 ++ u :: l2 ->
  Forall (other_than id) l1 -> ID u = id ->
  deleteUser s idStr
  = (Responded (mkResponse StatusNoContent Empty), mkStore (l1 ++ l2) (nextID s)).
Proof.
  intros HA Hus Hl1 Hu. unfold deleteUser.
  rewrite HA, Hus, (scan_first id l1 l2 u Hl1 Hu). simpl.
  now rewrite cut_at.
Qed.

Lemma createUser_decoded (s : Store) (body : string) (decoded : User) :
  Decode body = Some decoded ->
  createUser Decode s body
  = (Responded (mkResponse StatusCreated (JSONUser (mkUser (nextID s) (Name decoded) (Age decoded)))),
     mkStore (users s ++ [mkUser (nextID s) (Name decoded) (Age decoded)]) (incr (nextID s))).
Proof. intros HD. unfold createUser. now rewrite HD. Qed.

End InMemoryFacts.

(** ** The id allocator over a run of the in-memory service *)

Section InMemoryRuns.

Import InMemory.
Variable Decode : string -> option User.

Lemma allocations_cons (r : Request) (rs : list Request) :
  allocations Decode (r :: rs) = (allocations Decode [r] + allocations Decode rs)%nat.
Proof. destruct r; simpl; try reflexivity. now destruct (Decode body). Qed.

(** A request either leaves the counter alone and creates nothing, or takes
    the current value of the counter as the id it creates. *)
Lemma serve_counter (s : Store) (r : Request) :
  (allocations Decode [r] = 0%nat
   /\ created_id (fst (serve Decode s r)) = None
   /\ nextID (snd (serve Decode s r)) = nextID s)
  \/ (allocations Decode [r] = 1%nat
      /\ created_id (fst (serve Decode s r)) = Some (nextID s)
      /\ nextID (snd (serve Decode s r)) = incr (nextID s)).
Proof.
  destruct r as [|body|idStr|idStr body|idStr]; simpl.
  - left. auto.
  - unfold createUser. destruct (Decode body); [right|left]; auto.
  - left. unfold getUser. destruct (Atoi idStr); [|auto].
    destruct (scan _ _ _) as [[? ?]|]; auto.
  - left. unfold updateUser. destruct (Decode body); [|auto].
    destruct (Atoi idStr); [|auto].
    destruct (scan _ _ _) as [[i ?]|]; [|auto]. simpl.
    destruct (nth_error _ i); auto.
  - left. unfold deleteUser. destruct (Atoi idStr); [|auto].
    destruct (scan _ _ _) as [[? ?]|]; auto.
Qed.

Lemma run_cons (s : Store) (r : Request) (rs : list Request) :
  run Decode s (r :: rs)
  = (fst (serve Decode s r) :: fst (run Decode (snd (serve Decode s r)) rs),
     snd (run Decode (snd (serve Decode s r)) rs)).
Proof.
  simpl. destruct (serve Decode s r) as [o s1]. simpl.
  now destruct (run Decode s1 rs).
Qed.

(** While the counter, started at [c], stays within [int], the ids created
    by a run increase strictly, from [c] upwards. *)
Lemma created_ids_from (rs : list Request) :
  forall (s : Store) (c : Z),
    nextID s = wrap c -> min_int <= c ->
    c + Z.of_nat (allocations Decode rs) <= max_int + 1 ->
    StronglySorted Z.lt (created_ids (fst (run Decode s rs)))
    /\ Forall (fun i => c <= i) (created_ids (fst (run Decode s rs))).
Proof.
  induction rs as [|r rs IH]; intros s c Hs Hc Hb.
  - simpl. split; constructor.
  - rewrite run_cons. rewrite allocations_cons in Hb. cbn [fst created_ids].
    destruct (serve_counter s r) as [(Ha & Ho & Hn)|(Ha & Ho & Hn)];
      rewrite Ha in Hb; rewrite Ho.
    + apply IH; [congruence|lia|lia].
    + assert (Hw : wrap c = c) by (apply wrap_in_range; lia).
      destruct (IH (snd (serve Decode s r)) (c + 1)) as [Hsorted Hge].
      * rewrite Hn, Hs. apply wrap_wrap_succ.
      * lia.
      * lia.
      * rewrite Hs, Hw. split.
        -- constructor; [exact Hsorted|].
           eapply Forall_impl; [|exact Hge]. simpl. intros; lia.
        -- constructor; [lia|].
           eapply Forall_impl; [|exact Hge]. simpl. intros; lia.
Qed.

Lemma run_app (rs1 rs2 : list Request) :
  forall s : Store,
    fst (run Decode s (rs1 ++ rs2))
    = fst (run Decode s rs1) ++ fst (run Decode (snd (run Decode s rs1)) rs2).
Proof.
  induction rs1 as [|r rs1 IH]; intros s.
  - reflexivity.
  - rewrite <- app_comm_cons, !run_cons. cbn [fst snd].
    now rewrite IH, <- app_comm_cons.
Qed.

Lemma created_ids_app (os1 os2 : list Outcome) :
  created_ids (os1 ++ os2) = created_ids os1 ++ created_ids os2.
Proof.
  induction os1 as [|o os1 IH]; simpl; [reflexivity|].
  destruct (created_id o); simpl; now rewrite IH.
Qed.

End InMemoryRuns.

(** ** The loop of the mirrored [deleteUser] *)

Lemma firstn_exact {A : Type} (l1 l2 : list A) : firstn (List.length l1) (l1 ++ l2) = l1.
Proof. induction l1 as [|a l1 IH]; simpl; [now destruct l2|now rewrite IH]. Qed.

Lemma skipn_past {A : Type} (l1 l2 : list A) (k : nat) :
  skipn (List.length l1 + k) (l1 ++ l2) = skipn k l2.
Proof. induction l1 as [|a l1 IH]; simpl; auto. Qed.

Lemma skipn_keeps {A : Type} (P : A -> Prop) (k : nat) (l : list A) :
  Forall P l -> Forall P (skipn k l).
Proof.
  revert l. induction k as [|k IH]; intros l H; [exact H|].
  destruct H as [|a l _ H]; simpl; auto.
Qed.

Section Sweep.

Import Mirrored.
Variable id : Z.

(** Over records of other ids the loop leaves [users] alone. *)
Lemma sweep_others (mid : list User) :
  Forall (other_than id) mid ->
  forall (pre post : list User) (n k : nat),
    sweep id (List.length mid + k) (List.length pre) (mkSlice (pre ++ mid ++ post) n)
    = sweep id k (List.length pre + List.length mid) (mkSlice (pre ++ mid ++ post) n).
Proof.
  induction 1 as [|x mid Hx _ IH]; intros pre post n k.
  - simpl. now rewrite Nat.add_0_r.
  - cbn [List.length Nat.add sweep array]. cbn [app].
    rewrite nth_error_at.
    destruct (Z.eqb_spec (ID x) id) as [E|_]; [contradiction|].
    specialize (IH (pre ++ [x]) post n k).
    rewrite <- !app_assoc, length_app in IH. cbn [app List.length] in IH.
    rewrite Nat.add_1_r in IH. rewrite IH. f_equal. lia.
Qed.

(** The removal at the place of the record found: the tail moves down, and
    the last cell of the backing array keeps its old value. *)
Lemma remove_at_found (l1 l2 : list User) (u : User) :
  remove_at (List.length l1) (mkSlice (l1 ++ u :: l2) (List.length (l1 ++ u :: l2)))
  = Some (mkSlice (l1 ++ l2 ++ skipn (List.length l2) (u :: l2)) (List.length (l1 ++ l2))).
Proof.
  unfold remove_at. cbn [len array]. rewrite !length_app. cbn [List.length].
  destruct (Nat.leb_spec (S (List.length l1)) (List.length l1 + S (List.length l2))) as [_|H];
    [|lia].
  f_equal. f_equal; [|lia].
  rewrite firstn_exact. f_equal.
  replace (S (List.length l1)) with (List.length l1 + 1)%nat by lia.
  rewrite skipn_past. cbn [skipn].
  replace (List.length l1 + S (List.length l2) - (List.length l1 + 1))%nat
    with (List.length l2) by lia.
  rewrite firstn_all. f_equal.
  replace (List.length l1 + S (List.length l2) - 1)%nat
    with (List.length l1 + List.length l2)%nat by lia.
  now rewrite skipn_past.
Qed.

(** Past the record found, the cells left to visit hold other ids. *)
Lemma sweep_rest (n : nat) :
  forall (i : nat) (s : Slice),
    (forall j u, (i <= j)%nat -> nth_error (array s) j = Some u -> other_than id u) ->
    (i + n <= List.length (array s))%nat ->
    sweep id n i s = Through s.
Proof.
  induction n as [|n IH]; intros i s Hcells Hlen; [reflexivity|].
  cbn [sweep]. destruct (nth_error (array s) i) as [u|] eqn:Hi.
  - destruct (Z.eqb_spec (ID u) id) as [E|_].
    + exfalso. exact (Hcells i u (Nat.le_refl i) Hi E).
    + apply IH; [|lia]. intros j v Hj. apply Hcells. lia.
  - apply nth_error_None in Hi. lia.
Qed.

(** On a slice that holds the id once, the loop runs through and leaves the
    other records, in their order. *)
Lemma sweep_only (l1 l2 : list User) (u : User) :
  ID u = id -> Forall (other_than id) (l1 ++ l2) ->
  exists s,
    sweep id (List.length (l1 ++ u :: l2)) 0
          (mkSlice (l1 ++ u :: l2) (List.length (l1 ++ u :: l2))) = Through s
    /\ elems s = l1 ++ l2.
Proof.
  intros Hu Hall. apply Forall_app in Hall. destruct Hall as [H1 H2].
  exists (mkSlice (l1 ++ l2 ++ skipn (List.length l2) (u :: l2)) (List.length (l1 ++ l2))).
  split.
  - pose proof (sweep_others l1 H1 [] (u :: l2) (List.length (l1 ++ u :: l2))
                  (S (List.length l2))) as Hpre.
    cbn [app List.length Nat.add] in Hpre.
    replace (List.length (l1 ++ u :: l2)) with (List.length l1 + S (List.length l2))%nat at 1
      by (rewrite length_app; reflexivity).
    rewrite Hpre. cbn [sweep array]. rewrite nth_error_at, Hu, Z.eqb_refl.
    rewrite remove_at_found.
    apply sweep_rest; cbn [array].
    + intros j v Hj Hv.
      rewrite nth_error_app2 in Hv by lia.
      destruct l2 as [|x l2'].
      * cbn [app List.length skipn] in Hv.
        destruct (j - List.length l1)%nat as [|[|k]] eqn:E; [lia|discriminate|discriminate].
      * apply nth_error_In in Hv. apply in_app_or in Hv.
        destruct Hv as [Hv|Hv].
        -- exact (proj1 (Forall_forall _ _) H2 v Hv).
        -- cbn [List.length skipn] in Hv.
           exact (proj1 (Forall_forall _ _) (skipn_keeps _ _ _ H2) v Hv).
    + rewrite !length_app, length_skipn. cbn [List.length]. lia.
  - unfold elems. cbn [len array]. rewrite app_assoc. apply firstn_exact.
Qed.

End Sweep.

(** ** Startup of the mirrored service *)

(** The documents of the cursor enter [users] as they are, in their order. *)
Lemma bulkLoad_as_is (docs : list User) :
  forall us : list User, Mirrored.bulkLoad docs us = us ++ docs.
Proof.
  unfold Mirrored.bulkLoad. induction docs as [|d docs IH]; intros us; simpl.
  - now rewrite app_nil_r.
  - rewrite IH, <- app_assoc. reflexivity.
Qed.

(** ** Handlers of the mirrored service *)

Section MirroredFacts.

Import Mirrored.
Variable Mirror : Type.
Variable InsertOne : Mirror -> User -> InsertResult * Mirror.
Variable DeleteOne : Mirror -> Z -> DeleteResult * Mirror.
Variable Decode : string -> option User.

Lemma mirrored_getUser_first (w : World Mirror) (idStr : string) (id : Z)
      (l1 l2 : list User) (u : User) :
  Atoi idStr = Some id -> users w = l1 ++ u :: l2 ->
  Forall (other_than id) l1 -> ID u = id ->
  getUser Mirror w idStr = (Responded (mkResponse StatusOK (JSONUser u)), w).
Proof.
  intros HA Hus Hl1 Hu. unfold getUser.
  now rewrite HA, Hus, (scan_first id l1 l2 u Hl1 Hu).
Qed.

Lemma mirrored_getUser_absent (w : World Mirror) (idStr : string) (id : Z) :
  Atoi idStr = Some id -> Forall (other_than id) (users w) ->
  getUser Mirror w idStr = (Responded (httpError "User not found" StatusNotFound), w).
Proof.
  intros HA Hus. unfold getUser. now rewrite HA, (scan_none id _ Hus).
Qed.

Lemma mirrored_updateUser_in_place (w : World Mirror) (idStr body : string) (upd : User) (id : Z) :
  Decode body = Some upd -> Atoi idStr = Some id -> In id (map ID (users w)) ->
  exists u' us',
    updateUser Mirror Decode w idStr body
    = (Responded (mkResponse StatusOK (JSONUser u')), mkWorld us' (nextID w) (mirror w))
    /\ updated_in_place id upd (users w) us' u'
    /\ getUser Mirror (mkWorld us' (nextID w) (mirror w)) idStr
       = (Responded (mkResponse StatusOK (JSONUser u')), mkWorld us' (nextID w) (mirror w)).
Proof.
  intros HD HA Hin.
  destruct (first_with_id id (users w) Hin) as (l1 & u & l2 & Hus & Hu & Hl1).
  exists (mkUser (ID u) (Name upd) (Age upd)), (l1 ++ mkUser (ID u) (Name upd) (Age upd) :: l2).
  split; [|split].
  - unfold updateUser. rewrite HD, HA, Hus, (scan_first id l1 l2 u Hl1 Hu). simpl.
    now rewrite assign_at, nth_error_at.
  - exists l1, u, l2. auto.
  - apply mirrored_getUser_first with (id := id) (l1 := l1) (l2 := l2); auto.
Qed.

(** [updateUser] hands the collection on as it got it. *)
Lemma updateUser_mirror (w : World Mirror) (idStr body : string) :
  mirror (snd (updateUser Mirror Decode w idStr body)) = mirror w.
Proof.
  unfold updateUser.
  destruct (Decode body) as [upd|]; [|reflexivity].
  destruct (Atoi idStr) as [id|]; [|reflexivity].
  destruct (scan id (users w) 0) as [[i u]|]; [|reflexivity].
  cbn [users]. now destruct (nth_error _ i).
Qed.

Lemma createUser_inserted (w : World Mirror) (body : string) (decoded : User) (m : Mirror) :
  Decode body = Some decoded ->
  InsertOne (mirror w) (mkUser (nextID w) (Name decoded) (Age decoded)) = (InsertOK, m) ->
  createUser Mirror InsertOne Decode w body
  = (Responded (mkResponse StatusCreated (JSONUser (mkUser (nextID w) (Name decoded) (Age decoded)))),
     mkWorld (users w ++ [mkUser (nextID w) (Name decoded) (Age decoded)]) (incr (nextID w)) m).
Proof. intros HD HI. unfold createUser. now rewrite HD, HI. Qed.

Lemma createUser_insert_failed (w : World Mirror) (body msg : string) (decoded : User) (m : Mirror) :
  Decode body = Some decoded ->
  InsertOne (mirror w) (mkUser (nextID w) (Name decoded) (Age decoded)) = (InsertErr msg, m) ->
  createUser Mirror InsertOne Decode w body
  = (Responded (httpError msg StatusInternalServerError),
     mkWorld (users w) (incr (nextID w)) m).
Proof. intros HD HI. unfold createUser. now rewrite HD, HI. Qed.

Lemma deleteUser_mirror_error (w : World Mirror) (body : string) (decoded : User) (m : Mirror) :
  Decode body = Some decoded -> DeleteOne (mirror w) (ID decoded) = (DeleteErr, m) ->
  deleteUser Mirror DeleteOne Decode w body = (Fatal, mkWorld (users w) (nextID w) m).
Proof. intros HD HM. unfold deleteUser. now rewrite HD, HM. Qed.


(** With a positive count the answer is 204 also when no record has the id. *)
Lemma deleteUser_deleted_absent (w : World Mirror) (body : string) (decoded : User)
      (count : Z) (m : Mirror) :
  Decode body = Some decoded -> DeleteOne (mirror w) (ID decoded) = (Deleted count, m) ->
  0 < count -> Forall (other_than (ID decoded)) (users w) ->
  deleteUser Mirror DeleteOne Decode w body
  = (Responded (mkResponse StatusNoContent Empty), mkWorld (users w) (nextID w) m).
Proof.
  intros HD HM Hc Hus. unfold deleteUser. rewrite HD, HM.
  destruct (Z.gtb_spec count 0) as [_|H]; [|lia].
  rewrite sweep_rest; cbn [array].
  - unfold elems. cbn [len array]. now rewrite firstn_all.
  - intros j u _ Hj. apply nth_error_In in Hj.
    exact (proj1 (Forall_forall _ _) Hus u Hj).
  - simpl. lia.
Qed.

Lemma deleteUser_only (w : World Mirror) (body : string) (decoded : User)
      (count : Z) (m : Mirror) (l1 l2 : list User) :
  Decode body = Some decoded -> DeleteOne (mirror w) (ID decoded) = (Deleted count, m) ->
  0 < count -> only_at (ID decoded) (users w) l1 l2 ->
  deleteUser Mirror DeleteOne Decode w body
  = (Responded (mkResponse StatusNoContent Empty), mkWorld (l1 ++ l2) (nextID w) m).
Proof.
  intros HD HM Hc (u & Hus & Hu & Hall). unfold deleteUser. rewrite HD, HM.
  destruct (Z.gtb_spec count 0) as [_|H]; [|lia].
  rewrite Hus.
  destruct (sweep_only (ID decoded) l1 l2 u Hu Hall) as (s & -> & ->).
  reflexivity.
Qed.

End MirroredFacts.

(** ** The id allocator over a run of the mirrored service *)

Section MirroredRuns.

Import Mirrored.
Variable Mirror : Type.
Variable InsertOne : Mirror -> User -> InsertResult * Mirror.
Variable DeleteOne : Mirror -> Z -> DeleteResult * Mirror.
Variable Decode : string -> option User.

Lemma mirrored_allocations_cons (r : Request) (rs : list Request) :
  allocations Decode (r :: rs) = (allocations Decode [r] + allocations Decode rs)%nat.
Proof. destruct r; simpl; try reflexivity. now destruct (Decode body). Qed.

(** A request either leaves the counter alone and creates nothing, or steps
    the counter; what it creates then, if the collection took the insert, has
    the value the counter had. *)
Lemma mirrored_serve_counter (w : World Mirror) (r : Request) :
  (allocations Decode [r] = 0%nat
   /\ created_id (fst (serve Mirror InsertOne DeleteOne Decode w r)) = None
   /\ nextID (snd (serve Mirror InsertOne DeleteOne Decode w r)) = nextID w)
  \/ (allocations Decode [r] = 1%nat
      /\ (created_id (fst (serve Mirror InsertOne DeleteOne Decode w r)) = Some (nextID w)
          \/ created_id (fst (serve Mirror InsertOne DeleteOne Decode w r)) = None)
      /\ nextID (snd (serve Mirror InsertOne DeleteOne Decode w r)) = incr (nextID w)).
Proof.
  destruct r as [|body|idStr|idStr body|body]; simpl.
  - left. auto.
  - unfold createUser. destruct (Decode body) as [decoded|]; [right|left; auto].
    destruct (InsertOne _ _) as [[|msg] m]; simpl; auto.
  - left. unfold getUser. destruct (Atoi idStr); [|auto].
    destruct (scan _ _ _) as [[? ?]|]; auto.
  - left. unfold updateUser. destruct (Decode body); [|auto].
    destruct (Atoi idStr); [|auto].
    destruct (scan _ _ _) as [[i ?]|]; [|auto]. simpl.
    destruct (nth_error _ i); auto.
  - left. unfold deleteUser. destruct (Decode body) as [decoded|]; [|auto].
    destruct (DeleteOne _ _) as [[|count] m]; [auto|].
    destruct (count >? 0); [|auto].
    destruct (sweep _ _ _ _); auto.
Qed.

Lemma mirrored_created_ids_from (rs : list Request) :
  forall (w : World Mirror) (c : Z),
    nextID w = wrap c -> min_int <= c ->
    c + Z.of_nat (allocations Decode rs) <= max_int + 1 ->
    StronglySorted Z.lt (created_ids (fst (run Mirror InsertOne DeleteOne Decode w rs)))
    /\ Forall (fun i => c <= i) (created_ids (fst (run Mirror InsertOne DeleteOne Decode w rs))).
Proof.
  induction rs as [|r rs IH]; intros w c Hs Hc Hb.
  - simpl. split; constructor.
  - rewrite mirrored_allocations_cons in Hb.
    pose proof (mirrored_serve_counter w r) as Hstep. cbn [run].
    destruct (serve Mirror InsertOne DeleteOne Decode w r) as [o w1].
    cbn [fst snd] in Hstep.
    assert (Hcons : StronglySorted Z.lt
                      (created_ids (o :: fst (run Mirror InsertOne DeleteOne Decode w1 rs)))
                    /\ Forall (fun i => c <= i)
                         (created_ids (o :: fst (run Mirror InsertOne DeleteOne Decode w1 rs)))).
    { cbn [created_ids].
      destruct Hstep as [(Ha & Ho & Hn)|(Ha & Ho & Hn)]; rewrite Ha in Hb.
      - rewrite Ho. apply IH; [congruence|lia|lia].
      - assert (Hw : wrap c = c) by (apply wrap_in_range; lia).
        destruct (IH w1 (c + 1)) as [Hsorted Hge];
          [rewrite Hn, Hs; apply wrap_wrap_succ|lia|lia|].
        assert (Hge' : Forall (fun i => c <= i)
                         (created_ids (fst (run Mirror InsertOne DeleteOne Decode w1 rs))))
          by (eapply Forall_impl; [|exact Hge]; simpl; intros; lia).
        destruct Ho as [Ho|Ho]; rewrite Ho; [|now split].
        rewrite Hs, Hw. split; constructor; auto; try lia.
        eapply Forall_impl; [|exact Hge]. simpl. intros; lia. }
    destruct o as [resp| |].
    + destruct (run Mirror InsertOne DeleteOne Decode w1 rs) as [os w2]. exact Hcons.
    + simpl. split; constructor.
    + destruct (run Mirror InsertOne DeleteOne Decode w1 rs) as [os w2]. exact Hcons.
Qed.

End MirroredRuns.

(** ** A run across an outage of the collection *)

Section OutageRun.

Import Mirrored.

Local Abbreviation serve :=
  (Mirrored.serve Sample.Outage Sample.OutageInsertOne Sample.OutageDeleteOne Sample.Decode).
Local Abbreviation run :=
  (Mirrored.run Sample.Outage Sample.OutageInsertOne Sample.OutageDeleteOne Sample.Decode).
Local Abbreviation post := (PostUsers "{name:Bob,age:41}").

(** During the outage a create is answered 500: it steps the counter and the
    count of attempts, and leaves [users] and the documents alone. *)
Lemma outage_create_fails (us kept : list User) (next k : Z) :
  1 <= k < max_int ->
  serve (mkWorld us next (Sample.mkOutage kept k)) post
  = (Responded (httpError "server selection error" StatusInternalServerError),
     mkWorld us (incr next) (Sample.mkOutage kept (k + 1))).
Proof.
  intros Hk. cbn [Mirrored.serve]. unfold createUser.
  change (Sample.Decode "{name:Bob,age:41}") with (Some (mkUser 0 "Bob" 41)).
  cbn [mirror nextID users Name Age]. unfold Sample.OutageInsertOne.
  cbn [Sample.attempts Sample.kept].
  destruct (Z.eqb_spec k 0) as [E|_]; [lia|].
  destruct (Z.leb_spec max_int k) as [E|_]; [lia|].
  reflexivity.
Qed.

(** [n] creates in a row inside the outage, and then the requests [rest]. *)
Lemma outage_creates (rest : list Request) (us kept : list User) (n : nat) :
  forall c k : Z,
    1 <= k -> k + Z.of_nat n <= max_int ->
    created_ids (fst (run (mkWorld us (wrap c) (Sample.mkOutage kept k))
                          (repeat post n ++ rest)))
    = created_ids (fst (run (mkWorld us (wrap (c + Z.of_nat n))
                                     (Sample.mkOutage kept (k + Z.of_nat n))) rest))
    /\ snd (run (mkWorld us (wrap c) (Sample.mkOutage kept k)) (repeat post n ++ rest))
       = snd (run (mkWorld us (wrap (c + Z.of_nat n))
                           (Sample.mkOutage kept (k + Z.of_nat n))) rest).
Proof.
  induction n as [|n IH]; intros c k Hk Hb.
  - cbn [repeat app]. change (Z.of_nat 0) with 0. now rewrite !Z.add_0_r.
  - rewrite Nat2Z.inj_succ in *. cbn [repeat app Mirrored.run].
    rewrite outage_create_fails by lia.
    destruct (IH (c + 1) (k + 1)) as [Hids Hsnd]; [lia|lia|].
    unfold incr. rewrite wrap_wrap_succ.
    replace (c + Z.succ (Z.of_nat n)) with (c + 1 + Z.of_nat n) by lia.
    replace (k + Z.succ (Z.of_nat n)) with (k + 1 + Z.of_nat n) by lia.
    rewrite <- Hids, <- Hsnd.
    destruct (run _ (repeat post n ++ rest)) as [os w2]. split; reflexivity.
Qed.

(** The first create, the [n] creates of the outage and the create after it. *)
Lemma outage_run (n : nat) :
  Z.of_nat n = max_int - 1 ->
  created_ids (fst (run (main Sample.Outage [] (Sample.mkOutage [] 0))
                        (post :: repeat post n ++ [post])))
  = [1; min_int]
  /\ users (snd (run (main Sample.Outage [] (Sample.mkOutage [] 0))
                     (post :: repeat post n ++ [post])))
     = [mkUser 1 "Bob" 41; mkUser min_int "Bob" 41].
Proof.
  intros Hn.
  destruct (outage_creates [post] [mkUser 1 "Bob" 41] [mkUser 1 "Bob" 41] n 2 1)
    as [Hids Hsnd]; [lia|lia|].
  rewrite Hn in Hids, Hsnd.
  change (wrap (2 + (max_int - 1))) with min_int in Hids, Hsnd.
  change (1 + (max_int - 1)) with max_int in Hids, Hsnd.
  change (wrap 2) with 2 in Hids, Hsnd.
  cbn [Mirrored.run].
  change (serve (main Sample.Outage [] (Sample.mkOutage [] 0)) post)
    with (Responded (mkResponse StatusCreated (JSONUser (mkUser 1 "Bob" 41))),
          mkWorld [mkUser 1 "Bob" 41] 2 (Sample.mkOutage [mkUser 1 "Bob" 41] 1)).
  cbv beta iota.
  destruct (run (mkWorld [mkUser 1 "Bob" 41] 2 (Sample.mkOutage [mkUser 1 "Bob" 41] 1))
                (repeat post n ++ [post])) as [os w2].
  cbn [fst snd] in *. cbn [created_ids created_id]. cbn [ID].
  change (StatusCreated =? StatusCreated) with true.
  cbv iota. rewrite Hids, Hsnd. split; reflexivity.
Qed.

End OutageRun.

(** * The claims *)

(** C1, amended: from the empty store, for every sequence of requests of which
    at most [max_int] (2^63 - 1) reach the allocator, the ids returned by
    create increase strictly: each is greater than all ids returned before it,
    whatever deletes and other requests come in between, so no id is used
    twice. It holds of the in-memory service and of the mirrored one started
    on an empty collection. *)
Theorem created_ids_increase :
  (forall (Decode : string -> option User) (rs : list InMemory.Request),
      Z.of_nat (InMemory.allocations Decode rs) <= max_int ->
      StronglySorted Z.lt (created_ids (fst (InMemory.run Decode InMemory.init rs))))
  /\ (forall (Mirror : Type) InsertOne DeleteOne (Decode : string -> option User)
             (m : Mirror) (rs : list Mirrored.Request),
      Z.of_nat (Mirrored.allocations Decode rs) <= max_int ->
      StronglySorted Z.lt
        (created_ids (fst (Mirrored.run Mirror InsertOne DeleteOne Decode
                             (Mirrored.main Mirror [] m) rs)))).
Proof.
  split.
  - intros Decode rs Hb.
    apply (created_ids_from Decode rs InMemory.init 1); [reflexivity|discriminate|lia].
  - intros Mirror InsertOne DeleteOne Decode m rs Hb.
    apply (mirrored_created_ids_from Mirror InsertOne DeleteOne Decode rs
             (Mirrored.main Mirror [] m) 1); [reflexivity|discriminate|lia].
Qed.

Lemma created_ids_increase_witness :
  StronglySorted Z.lt
    (created_ids (fst (InMemory.run Sample.Decode InMemory.init
       [InMemory.PostUsers "{id:7,name:Ann,age:30}"; InMemory.DeleteUser "1";
        InMemory.PostUsers "{name:Bob,age:41}"])))
  /\ StronglySorted Z.lt
       (created_ids (fst (Mirrored.run Sample.Collection Sample.InsertOne Sample.DeleteOne
          Sample.Decode (Mirrored.main Sample.Collection [] (Sample.mkCollection [] true))
          [Mirrored.PostUsers "{id:7,name:Ann,age:30}"; Mirrored.DeleteUser "{id:1}";
           Mirrored.PostUsers "{name:Bob,age:41}"]))).
Proof.
  split.
  - apply (proj1 created_ids_increase). vm_compute. discriminate.
  - apply (proj2 created_ids_increase). vm_compute. discriminate.
Defined.

(** C1 as stated fails: on a collection that takes the first insert and is then
    out of reach until the last of 2^63 creates, every create in between
    consumes an id and stores nothing; the first create returns id 1, the last
    one returns [min_int], below it, and the store holds just these two
    records. *)
Lemma created_ids_wrap_around :
  created_ids (fst (Mirrored.run Sample.Outage Sample.OutageInsertOne Sample.OutageDeleteOne
                      Sample.Decode (Mirrored.main Sample.Outage [] (Sample.mkOutage [] 0))
                      (repeat (Mirrored.PostUsers "{name:Bob,age:41}")
                              (Z.to_nat 9223372036854775808))))
  = [1; min_int]
  /\ Mirrored.users
       (snd (Mirrored.run Sample.Outage Sample.OutageInsertOne Sample.OutageDeleteOne
               Sample.Decode (Mirrored.main Sample.Outage [] (Sample.mkOutage [] 0))
               (repeat (Mirrored.PostUsers "{name:Bob,age:41}")
                       (Z.to_nat 9223372036854775808))))
     = [mkUser 1 "Bob" 41; mkUser min_int "Bob" 41]
  /\ ~ StronglySorted Z.lt [1; min_int].
Proof.
  assert (Hn : exists n : nat,
             Z.to_nat 9223372036854775808 = S (n + 1) /\ Z.of_nat n = max_int - 1).
  { exists (Z.to_nat 9223372036854775806). unfold max_int. split; lia. }
  destruct Hn as (n & -> & Hn).
  cbn [repeat]. rewrite repeat_app. cbn [repeat].
  destruct (outage_run n Hn) as [Hids Hus].
  split; [exact Hids|]. split; [exact Hus|].
  intros Hsorted. apply StronglySorted_inv in Hsorted. destruct Hsorted as [_ Hall].
  inversion Hall as [|? ? Hlt _]. discriminate Hlt.
Qed.

(** C2, amended: for every create whose insert into the collection fails, the
    handler answers 500 with the error's text and appends nothing to [users]:
    the record collection is as before. The counter is not as before: the id
    taken for the failed create stays consumed, [nextID] has advanced by one. *)
Theorem failed_insert_keeps_users :
  forall (Mirror : Type) (InsertOne : Mirror -> User -> Mirrored.InsertResult * Mirror)
         (Decode : string -> option User) (w : Mirrored.World Mirror)
         (body msg : string) (decoded : User) (m : Mirror),
    Decode body = Some decoded ->
    InsertOne (Mirrored.mirror w) (mkUser (Mirrored.nextID w) (Name decoded) (Age decoded))
    = (Mirrored.InsertErr msg, m) ->
    fst (Mirrored.createUser Mirror InsertOne Decode w body)
    = Responded (httpError msg StatusInternalServerError)
    /\ Mirrored.users (snd (Mirrored.createUser Mirror InsertOne Decode w body))
       = Mirrored.users w
    /\ Mirrored.nextID (snd (Mirrored.createUser Mirror InsertOne Decode w body))
       = incr (Mirrored.nextID w).
Proof.
  intros Mirror InsertOne Decode w body msg decoded m HD HI.
  now rewrite (createUser_insert_failed Mirror InsertOne Decode w body msg decoded m HD HI).
Qed.

Lemma failed_insert_keeps_users_witness :
  fst (Mirrored.createUser Sample.Collection Sample.InsertOne Sample.Decode
         (Mirrored.mkWorld [mkUser 1 "Ann" 30] 2 (Sample.mkCollection [mkUser 1 "Ann" 30] false))
         "{name:Bob,age:41}")
  = Responded (httpError "server selection error" StatusInternalServerError)
  /\ Mirrored.users (snd (Mirrored.createUser Sample.Collection Sample.InsertOne Sample.Decode
         (Mirrored.mkWorld [mkUser 1 "Ann" 30] 2 (Sample.mkCollection [mkUser 1 "Ann" 30] false))
         "{name:Bob,age:41}"))
     = [mkUser 1 "Ann" 30]
  /\ Mirrored.nextID (snd (Mirrored.createUser Sample.Collection Sample.InsertOne Sample.Decode
         (Mirrored.mkWorld [mkUser 1 "Ann" 30] 2 (Sample.mkCollection [mkUser 1 "Ann" 30] false))
         "{name:Bob,age:41}"))
     = incr 2.
Proof.
  apply (failed_insert_keeps_users Sample.Collection Sample.InsertOne Sample.Decode
           (Mirrored.mkWorld [mkUser 1 "Ann" 30] 2 (Sample.mkCollection [mkUser 1 "Ann" 30] false))
           "{name:Bob,age:41}" "server selection error" (mkUser 0 "Bob" 41)
           (Sample.mkCollection [mkUser 1 "Ann" 30] false)).
  - reflexivity.
  - reflexivity.
Defined.

(** C2 as stated fails: a create whose insert fails leaves the allocator at 2
    where it was 1, so the state of the store is not what it was. *)
Lemma failed_insert_steps_counter :
  fst (Sample.InsertOne (Sample.mkCollection [] false) (mkUser 1 "Bob" 41))
  = Mirrored.InsertErr "server selection error"
  /\ Mirrored.createUser Sample.Collection Sample.InsertOne Sample.Decode
       (Mirrored.mkWorld [] 1 (Sample.mkCollection [] false)) "{name:Bob,age:41}"
     = (Responded (httpError "server selection error" StatusInternalServerError),
        Mirrored.mkWorld [] 2 (Sample.mkCollection [] false))
  /\ Mirrored.mkWorld [] 2 (Sample.mkCollection [] false)
     <> Mirrored.mkWorld [] 1 (Sample.mkCollection [] false).
Proof. repeat split; try reflexivity. discriminate. Qed.

(** C3 fails on the code: with one document of id 1 in the collection at
    startup, the first create is answered with id 1 again, and the store then
    holds two records of id 1, one loaded and one created. *)
Theorem bulk_loaded_id_reissued :
  Mirrored.run Sample.Collection Sample.InsertOne Sample.DeleteOne Sample.Decode
    (Mirrored.main Sample.Collection [mkUser 1 "Ann" 30]
       (Sample.mkCollection [mkUser 1 "Ann" 30] true))
    [Mirrored.PostUsers "{name:Bob,age:41}"]
  = ([Responded (mkResponse StatusCreated (JSONUser (mkUser 1 "Bob" 41)))],
     Mirrored.mkWorld [mkUser 1 "Ann" 30; mkUser 1 "Bob" 41] 2
       (Sample.mkCollection [mkUser 1 "Ann" 30; mkUser 1 "Bob" 41] true))
  /\ ~ NoDup (map ID [mkUser 1 "Ann" 30; mkUser 1 "Bob" 41]).
Proof.
  split; [reflexivity|].
  intros H. inversion H as [|x l Hnotin _]. apply Hnotin. simpl. auto.
Qed.

(** C4, amended: for every store that holds exactly one record of a given id,
    after a delete of that id succeeds (204), the store holds the other
    records in the order they had, [get] of that id answers 404, and the list
    of all users has no record of that id. It holds of the in-memory service,
    and of the mirrored one when the collection reports a positive count. *)
Theorem delete_only_record :
  (forall (s : InMemory.Store) (idStr : string) (id : Z) (l1 l2 : list User),
      Atoi idStr = Some id -> only_at id (InMemory.users s) l1 l2 ->
      InMemory.deleteUser s idStr
      = (Responded (mkResponse StatusNoContent Empty),
         InMemory.mkStore (l1 ++ l2) (InMemory.nextID s))
      /\ fst (InMemory.getUser (InMemory.mkStore (l1 ++ l2) (InMemory.nextID s)) idStr)
         = Responded (httpError "User not found" StatusNotFound)
      /\ fst (InMemory.getUsers (InMemory.mkStore (l1 ++ l2) (InMemory.nextID s)))
         = Responded (mkResponse StatusOK (JSONUsers (l1 ++ l2)))
      /\ ~ In id (map ID (l1 ++ l2)))
  /\ (forall (Mirror : Type) (DeleteOne : Mirror -> Z -> Mirrored.DeleteResult * Mirror)
             (Decode : string -> option User) (w : Mirrored.World Mirror)
             (body idStr : string) (decoded : User) (count : Z) (m : Mirror)
             (l1 l2 : list User),
      Decode body = Some decoded -> Atoi idStr = Some (ID decoded) ->
      DeleteOne (Mirrored.mirror w) (ID decoded) = (Mirrored.Deleted count, m) ->
      0 < count -> only_at (ID decoded) (Mirrored.users w) l1 l2 ->
      Mirrored.deleteUser Mirror DeleteOne Decode w body
      = (Responded (mkResponse StatusNoContent Empty),
         Mirrored.mkWorld (l1 ++ l2) (Mirrored.nextID w) m)
      /\ fst (Mirrored.getUser Mirror (Mirrored.mkWorld (l1 ++ l2) (Mirrored.nextID w) m) idStr)
         = Responded (httpError "User not found" StatusNotFound)
      /\ fst (Mirrored.getUsers Mirror (Mirrored.mkWorld (l1 ++ l2) (Mirrored.nextID w) m))
         = Responded (mkResponse StatusOK (JSONUsers (l1 ++ l2)))
      /\ ~ In (ID decoded) (map ID (l1 ++ l2))).
Proof.
  assert (Hgone : forall id (l : list User), Forall (other_than id) l -> ~ In id (map ID l)).
  { intros id l Hall Hin. apply in_map_iff in Hin. destruct Hin as (x & Hx & Hin).
    exact (proj1 (Forall_forall _ _) Hall x Hin Hx). }
  split.
  - intros s idStr id l1 l2 HA (u & Hus & Hu & Hall).
    assert (H1 : Forall (other_than id) l1) by (apply Forall_app in Hall; tauto).
    rewrite (deleteUser_first s idStr id l1 l2 u HA Hus H1 Hu).
    rewrite getUser_absent with (id := id) by assumption.
    repeat split. now apply Hgone.
  - intros Mirror DeleteOne Decode w body idStr decoded count m l1 l2 HD HA HM Hc Honly.
    rewrite (deleteUser_only Mirror DeleteOne Decode w body decoded count m l1 l2 HD HM Hc Honly).
    destruct Honly as (u & Hus & Hu & Hall).
    rewrite mirrored_getUser_absent with (id := ID decoded) by assumption.
    repeat split. now apply Hgone.
Qed.

Lemma delete_only_record_witness :
  InMemory.deleteUser
    (InMemory.mkStore [mkUser 1 "Ann" 30; mkUser 2 "Bob" 41; mkUser 3 "Cy" 25] 4) "2"
  = (Responded (mkResponse StatusNoContent Empty),
     InMemory.mkStore [mkUser 1 "Ann" 30; mkUser 3 "Cy" 25] 4)
  /\ Mirrored.deleteUser Sample.Collection Sample.DeleteOne Sample.Decode
       (Mirrored.mkWorld [mkUser 1 "Ann" 30; mkUser 2 "Bob" 41] 3
          (Sample.mkCollection [mkUser 1 "Ann" 30; mkUser 2 "Bob" 41] true)) "{id:1}"
     = (Responded (mkResponse StatusNoContent Empty),
        Mirrored.mkWorld [mkUser 2 "Bob" 41] 3 (Sample.mkCollection [mkUser 2 "Bob" 41] true)).
Proof.
  split.
  - refine (proj1 (proj1 delete_only_record
                     (InMemory.mkStore [mkUser 1 "Ann" 30; mkUser 2 "Bob" 41; mkUser 3 "Cy" 25] 4)
                     "2" 2 [mkUser 1 "Ann" 30] [mkUser 3 "Cy" 25] _ _)).
    + reflexivity.
    + exists (mkUser 2 "Bob" 41). repeat split.
      repeat constructor; unfold other_than; simpl; lia.
  - refine (proj1 (proj2 delete_only_record Sample.Collection Sample.DeleteOne Sample.Decode
                     (Mirrored.mkWorld [mkUser 1 "Ann" 30; mkUser 2 "Bob" 41] 3
                        (Sample.mkCollection [mkUser 1 "Ann" 30; mkUser 2 "Bob" 41] true))
                     "{id:1}" "1" (mkUser 1 "" 0) 1 (Sample.mkCollection [mkUser 2 "Bob" 41] true)
                     [] [mkUser 2 "Bob" 41] _ _ _ _ _)).
    + reflexivity.
    + reflexivity.
    + reflexivity.
    + lia.
    + exists (mkUser 1 "Ann" 30). repeat split.
      repeat constructor; unfold other_than; simpl; lia.
Defined.

(** C4 as stated fails: started on a collection that holds a document of id 1,
    two creates give the store three records, two of them of id 1; the delete
    of id 1 then succeeds with 204, and [get] of id 1 still answers 200, with
    the record the delete left. The in-memory service does the same on a store
    that holds two records of id 1: it removes the first and returns. *)
Lemma delete_leaves_same_id :
  Mirrored.run Sample.Collection Sample.InsertOne Sample.DeleteOne Sample.Decode
    (Mirrored.main Sample.Collection [mkUser 1 "Ann" 30]
       (Sample.mkCollection [mkUser 1 "Ann" 30] true))
    [Mirrored.PostUsers "{name:Bob,age:41}"; Mirrored.PostUsers "{name:Ann,age:31}"]
  = ([Responded (mkResponse StatusCreated (JSONUser (mkUser 1 "Bob" 41)));
      Responded (mkResponse StatusCreated (JSONUser (mkUser 2 "Ann" 31)))],
     Mirrored.mkWorld [mkUser 1 "Ann" 30; mkUser 1 "Bob" 41; mkUser 2 "Ann" 31] 3
       (Sample.mkCollection [mkUser 1 "Ann" 30; mkUser 1 "Bob" 41; mkUser 2 "Ann" 31] true))
  /\ fst (Mirrored.run Sample.Collection Sample.InsertOne Sample.DeleteOne Sample.Decode
            (Mirrored.mkWorld [mkUser 1 "Ann" 30; mkUser 1 "Bob" 41; mkUser 2 "Ann" 31] 3
               (Sample.mkCollection [mkUser 1 "Ann" 30; mkUser 1 "Bob" 41; mkUser 2 "Ann" 31] true))
            [Mirrored.DeleteUser "{id:1}"; Mirrored.GetUser "1"])
     = [Responded (mkResponse StatusNoContent Empty);
        Responded (mkResponse StatusOK (JSONUser (mkUser 1 "Bob" 41)))]
  /\ Responded (mkResponse StatusOK (JSONUser (mkUser 1 "Bob" 41)))
     <> Responded (httpError "User not found" StatusNotFound)
  /\ fst (InMemory.run Sample.Decode
            (InMemory.mkStore [mkUser 1 "Ann" 30; mkUser 1 "Bob" 41] 3)
            [InMemory.DeleteUser "1"; InMemory.GetUser "1"; InMemory.GetUsers])
     = [Responded (mkResponse StatusNoContent Empty);
        Responded (mkResponse StatusOK (JSONUser (mkUser 1 "Bob" 41)));
        Responded (mkResponse StatusOK (JSONUsers [mkUser 1 "Bob" 41]))].
Proof. repeat split; try reflexivity. discriminate. Qed.

(** C5: for every update of an id that the store holds, the answer is 200 with
    the updated record [u']; the store after is the store before with the
    first record of that id replaced at its place by [u'], which keeps that
    record's id and takes the name and age of the payload; every other record
    and the counter are as before; and a [get] of the id that follows answers
    [u']. It holds of both revisions, whose [updateUser] is the same. *)
Theorem update_changes_name_and_age_only :
  (forall (Decode : string -> option User) (s : InMemory.Store)
          (idStr body : string) (upd : User) (id : Z),
      Decode body = Some upd -> Atoi idStr = Some id -> In id (map ID (InMemory.users s)) ->
      exists u' us',
        InMemory.updateUser Decode s idStr body
        = (Responded (mkResponse StatusOK (JSONUser u')),
           InMemory.mkStore us' (InMemory.nextID s))
        /\ updated_in_place id upd (InMemory.users s) us' u'
        /\ InMemory.getUser (InMemory.mkStore us' (InMemory.nextID s)) idStr
           = (Responded (mkResponse StatusOK (JSONUser u')),
              InMemory.mkStore us' (InMemory.nextID s)))
  /\ (forall (Mirror : Type) (Decode : string -> option User) (w : Mirrored.World Mirror)
             (idStr body : string) (upd : User) (id : Z),
      Decode body = Some upd -> Atoi idStr = Some id -> In id (map ID (Mirrored.users w)) ->
      exists u' us',
        Mirrored.updateUser Mirror Decode w idStr body
        = (Responded (mkResponse StatusOK (JSONUser u')),
           Mirrored.mkWorld us' (Mirrored.nextID w) (Mirrored.mirror w))
        /\ updated_in_place id upd (Mirrored.users w) us' u'
        /\ Mirrored.getUser Mirror
             (Mirrored.mkWorld us' (Mirrored.nextID w) (Mirrored.mirror w)) idStr
           = (Responded (mkResponse StatusOK (JSONUser u')),
              Mirrored.mkWorld us' (Mirrored.nextID w) (Mirrored.mirror w))).
Proof.
  split.
  - exact updateUser_in_place.
  - exact mirrored_updateUser_in_place.
Qed.

Lemma update_changes_name_and_age_only_witness :
  exists u' us',
    InMemory.updateUser Sample.Decode
      (InMemory.mkStore [mkUser 1 "Ann" 30; mkUser 2 "Bob" 41] 3) "1" "{name:Ann,age:31}"
    = (Responded (mkResponse StatusOK (JSONUser u')), InMemory.mkStore us' 3)
    /\ updated_in_place 1 (mkUser 0 "Ann" 31) [mkUser 1 "Ann" 30; mkUser 2 "Bob" 41] us' u'
    /\ InMemory.getUser (InMemory.mkStore us' 3) "1"
       = (Responded (mkResponse StatusOK (JSONUser u')), InMemory.mkStore us' 3).
Proof.
  apply (proj1 update_changes_name_and_age_only Sample.Decode
           (InMemory.mkStore [mkUser 1 "Ann" 30; mkUser 2 "Bob" 41] 3)
           "1" "{name:Ann,age:31}" (mkUser 0 "Ann" 31) 1).
  - reflexivity.
  - reflexivity.
  - simpl. auto.
Defined.

(** C6: for every delete whose [DeleteOne] returns an error, the handler ends
    in [log.Fatal] without touching [users] or [nextID], and the process serves
    no request after it. *)
Theorem failed_delete_is_fatal :
  forall (Mirror : Type) InsertOne (DeleteOne : Mirror -> Z -> Mirrored.DeleteResult * Mirror)
         (Decode : string -> option User) (w : Mirrored.World Mirror)
         (body : string) (decoded : User) (m : Mirror) (rest : list Mirrored.Request),
    Decode body = Some decoded ->
    DeleteOne (Mirrored.mirror w) (ID decoded) = (Mirrored.DeleteErr, m) ->
    Mirrored.deleteUser Mirror DeleteOne Decode w body
    = (Fatal, Mirrored.mkWorld (Mirrored.users w) (Mirrored.nextID w) m)
    /\ Mirrored.run Mirror InsertOne DeleteOne Decode w (Mirrored.DeleteUser body :: rest)
       = ([Fatal], Mirrored.mkWorld (Mirrored.users w) (Mirrored.nextID w) m).
Proof.
  intros Mirror InsertOne DeleteOne Decode w body decoded m rest HD HM.
  pose proof (deleteUser_mirror_error Mirror DeleteOne Decode w body decoded m HD HM) as H.
  split; [exact H|]. cbn [Mirrored.run Mirrored.serve]. now rewrite H.
Qed.

Lemma failed_delete_is_fatal_witness :
  Mirrored.deleteUser Sample.Collection Sample.DeleteOne Sample.Decode
    (Mirrored.mkWorld [mkUser 1 "Ann" 30] 2 (Sample.mkCollection [mkUser 1 "Ann" 30] false))
    "{id:1}"
  = (Fatal,
     Mirrored.mkWorld [mkUser 1 "Ann" 30] 2 (Sample.mkCollection [mkUser 1 "Ann" 30] false))
  /\ Mirrored.run Sample.Collection Sample.InsertOne Sample.DeleteOne Sample.Decode
       (Mirrored.mkWorld [mkUser 1 "Ann" 30] 2 (Sample.mkCollection [mkUser 1 "Ann" 30] false))
       [Mirrored.DeleteUser "{id:1}"; Mirrored.GetUsers]
     = ([Fatal],
        Mirrored.mkWorld [mkUser 1 "Ann" 30] 2 (Sample.mkCollection [mkUser 1 "Ann" 30] false)).
Proof.
  apply (failed_delete_is_fatal Sample.Collection Sample.InsertOne Sample.DeleteOne Sample.Decode
           (Mirrored.mkWorld [mkUser 1 "Ann" 30] 2 (Sample.mkCollection [mkUser 1 "Ann" 30] false))
           "{id:1}" (mkUser 1 "" 0) (Sample.mkCollection [mkUser 1 "Ann" 30] false)
           [Mirrored.GetUsers]).
  - reflexivity.
  - reflexivity.
Defined.

(** C7: serving an update never changes the collection, whether it answers 200,
    404 or 400, and whatever [InsertOne] and [DeleteOne] would do: [updateUser]
    calls neither. *)
Theorem update_leaves_mirror :
  forall (Mirror : Type) InsertOne DeleteOne (Decode : string -> option User)
         (w : Mirrored.World Mirror) (idStr body : string),
    Mirrored.mirror (snd (Mirrored.serve Mirror InsertOne DeleteOne Decode w
                            (Mirrored.PutUser idStr body)))
    = Mirrored.mirror w.
Proof.
  intros Mirror InsertOne DeleteOne Decode w idStr body.
  cbn [Mirrored.serve]. apply updateUser_mirror.
Qed.

(** C8: for every [GET /user] whose [id] is not an integer for [strconv.Atoi],
    the handler answers 400 "Invalid ID", whatever the store holds, and returns
    with the store as it was; in both revisions. *)
Theorem get_invalid_id_is_400 :
  forall idStr : string,
    Atoi idStr = None ->
    (forall s : InMemory.Store,
        InMemory.getUser s idStr = (Responded (httpError "Invalid ID" StatusBadRequest), s))
    /\ (forall (Mirror : Type) (w : Mirrored.World Mirror),
        Mirrored.getUser Mirror w idStr
        = (Responded (httpError "Invalid ID" StatusBadRequest), w)).
Proof.
  intros idStr HA. split.
  - intros s. unfold InMemory.getUser. now rewrite HA.
  - intros Mirror w. unfold Mirrored.getUser. now rewrite HA.
Qed.

Lemma get_invalid_id_is_400_witness :
  (forall s : InMemory.Store,
      InMemory.getUser s "abc" = (Responded (httpError "Invalid ID" StatusBadRequest), s))
  /\ (forall (Mirror : Type) (w : Mirrored.World Mirror),
      Mirrored.getUser Mirror w "abc"
      = (Responded (httpError "Invalid ID" StatusBadRequest), w)).
Proof. apply (get_invalid_id_is_400 "abc"). reflexivity. Defined.

(** C9: for every payload that decodes, to [decoded], the record that create
    stores and returns has the current value of [nextID] as its id, with the
    name and age of the payload; the id of the payload appears nowhere in the
    outcome. In the mirrored service this is the record handed to [InsertOne]
    and, when the insert succeeds, the one stored and returned. *)
Theorem create_ignores_payload_id :
  (forall (Decode : string -> option User) (s : InMemory.Store) (body : string) (decoded : User),
      Decode body = Some decoded ->
      InMemory.createUser Decode s body
      = (Responded (mkResponse StatusCreated
                      (JSONUser (mkUser (InMemory.nextID s) (Name decoded) (Age decoded)))),
         InMemory.mkStore
           (InMemory.users s ++ [mkUser (InMemory.nextID s) (Name decoded) (Age decoded)])
           (incr (InMemory.nextID s))))
  /\ (forall (Mirror : Type) (InsertOne : Mirror -> User -> Mirrored.InsertResult * Mirror)
             (Decode : string -> option User) (w : Mirrored.World Mirror)
             (body : string) (decoded : User) (m : Mirror),
      Decode body = Some decoded ->
      InsertOne (Mirrored.mirror w) (mkUser (Mirrored.nextID w) (Name decoded) (Age decoded))
      = (Mirrored.InsertOK, m) ->
      Mirrored.createUser Mirror InsertOne Decode w body
      = (Responded (mkResponse StatusCreated
                      (JSONUser (mkUser (Mirrored.nextID w) (Name decoded) (Age decoded)))),
         Mirrored.mkWorld
           (Mirrored.users w ++ [mkUser (Mirrored.nextID w) (Name decoded) (Age decoded)])
           (incr (Mirrored.nextID w)) m)).
Proof.
  split.
  - exact createUser_decoded.
  - exact createUser_inserted.
Qed.

Lemma create_ignores_payload_id_witness :
  InMemory.createUser Sample.Decode (InMemory.mkStore [mkUser 1 "Bob" 41] 2)
    "{id:7,name:Ann,age:30}"
  = (Responded (mkResponse StatusCreated (JSONUser (mkUser 2 "Ann" 30))),
     InMemory.mkStore ([mkUser 1 "Bob" 41] ++ [mkUser 2 "Ann" 30]) (incr 2))
  /\ Mirrored.createUser Sample.Collection Sample.InsertOne Sample.Decode
       (Mirrored.mkWorld [mkUser 1 "Bob" 41] 2 (Sample.mkCollection [mkUser 1 "Bob" 41] true))
       "{id:7,name:Ann,age:30}"
     = (Responded (mkResponse StatusCreated (JSONUser (mkUser 2 "Ann" 30))),
        Mirrored.mkWorld ([mkUser 1 "Bob" 41] ++ [mkUser 2 "Ann" 30]) (incr 2)
          (Sample.mkCollection [mkUser 1 "Bob" 41; mkUser 2 "Ann" 30] true)).
Proof.
  split.
  - apply (proj1 create_ignores_payload_id Sample.Decode
             (InMemory.mkStore [mkUser 1 "Bob" 41] 2) "{id:7,name:Ann,age:30}"
             (mkUser 7 "Ann" 30)).
    reflexivity.
  - apply (proj2 create_ignores_payload_id Sample.Collection Sample.InsertOne Sample.Decode
             (Mirrored.mkWorld [mkUser 1 "Bob" 41] 2 (Sample.mkCollection [mkUser 1 "Bob" 41] true))
             "{id:7,name:Ann,age:30}" (mkUser 7 "Ann" 30)
             (Sample.mkCollection [mkUser 1 "Bob" 41; mkUser 2 "Ann" 30] true)).
    + reflexivity.
    + reflexivity.
Defined.





(** * Further properties of the handlers *)

(** ** What a scan that finds a record says of the store *)

Lemma scan_found (id : Z) (us : list User) :
  forall (k i : nat) (u : User),
    scan id us k = Some (i, u) ->
    exists l1 l2,
      us = l1 ++ u :: l2 /\ Forall (other_than id) l1 /\ ID u = id
      /\ i = (k + List.length l1)%nat.
Proof.
  induction us as [|x us IH]; intros k i u H; simpl in H; [discriminate|].
  destruct (Z.eqb_spec (ID x) id) as [E|N].
  - injection H as <- <-. exists [], us. simpl. rewrite Nat.add_0_r. auto.
  - destruct (IH _ _ _ H) as (l1 & l2 & -> & Hl1 & Hu & ->).
    exists (x :: l1), l2. simpl. repeat split; auto; lia.
Qed.

Lemma scan_missing (id : Z) (us : list User) :
  forall k : nat, scan id us k = None -> Forall (other_than id) us.
Proof.
  induction us as [|x us IH]; intros k H; simpl in H; [constructor|].
  destruct (Z.eqb_spec (ID x) id) as [E|N]; [discriminate|].
  constructor; [exact N|exact (IH _ H)].
Qed.

Lemma assign_ids (upd : User) (us : list User) :
  forall i : nat, map ID (assign i upd us) = map ID us.
Proof.
  induction us as [|x us IH]; intros [|i]; simpl; try reflexivity.
  now rewrite IH.
Qed.

Lemma others_app (id : Z) (l1 l2 : list User) :
  others id (l1 ++ l2) = others id l1 ++ others id l2.
Proof. apply filter_app. Qed.

Lemma others_drop (id : Z) (l1 l2 : list User) (u : User) :
  ID u = id -> others id (l1 ++ u :: l2) = others id (l1 ++ l2).
Proof.
  intros Hu. rewrite !others_app. f_equal. unfold others. simpl.
  now rewrite Hu, Z.eqb_refl.
Qed.

(** ** Strictly increasing ids *)

Lemma ids_within_weaken (c c' : Z) (ids : list Z) :
  c <= c' -> ids_within c ids -> ids_within c' ids.
Proof.
  intros Hc [Hs Hr]. split; [exact Hs|].
  eapply Forall_impl; [|exact Hr]. simpl. intros; lia.
Qed.

Lemma ids_within_snoc (c : Z) (ids : list Z) :
  1 <= c -> ids_within c ids -> ids_within (c + 1) (ids ++ [c]).
Proof.
  intros Hc [Hs Hr]. split.
  - induction Hs as [|i ids Hs IH Hi]; simpl.
    + repeat constructor.
    + apply Forall_cons_iff in Hr. destruct Hr as [Hi1 Hr].
      constructor; [exact (IH Hr)|].
      apply Forall_app. split; [exact Hi|]. constructor; [lia|constructor].
  - apply Forall_app. split.
    + eapply Forall_impl; [|exact Hr]. simpl. intros; lia.
    + constructor; [lia|constructor].
Qed.

(** Taking one id out keeps the others increasing. *)
Lemma ids_within_remove (c x : Z) (l1 l2 : list Z) :
  ids_within c (l1 ++ x :: l2) -> ids_within c (l1 ++ l2) /\ ~ In x (l1 ++ l2).
Proof.
  intros [Hs Hr]. repeat split.
  - clear Hr. induction l1 as [|a l1 IH]; simpl in *.
    + now apply StronglySorted_inv in Hs.
    + apply StronglySorted_inv in Hs. destruct Hs as [Hs Ha].
      constructor; [exact (IH Hs)|].
      apply Forall_app in Ha. destruct Ha as [Ha1 Ha2].
      apply Forall_cons_iff in Ha2. apply Forall_app. tauto.
  - apply Forall_app in Hr. destruct Hr as [Hr1 Hr2].
    apply Forall_cons_iff in Hr2. apply Forall_app. tauto.
  - clear Hr. induction l1 as [|a l1 IH]; simpl in *.
    + apply StronglySorted_inv in Hs. destruct Hs as [_ Hx].
      intros Hin. pose proof (proj1 (Forall_forall _ _) Hx x Hin). lia.
    + apply StronglySorted_inv in Hs. destruct Hs as [Hs Ha].
      intros [E|Hin]; [|exact (IH Hs Hin)].
      subst a. apply Forall_app in Ha. destruct Ha as [_ Ha].
      apply Forall_cons_iff in Ha. lia.
Qed.

Lemma ids_within_NoDup (c : Z) (ids : list Z) : ids_within c ids -> NoDup ids.
Proof.
  intros [Hs _]. induction Hs as [|i ids Hs IH Hi]; constructor; [|exact IH].
  intros Hin. pose proof (proj1 (Forall_forall _ _) Hi i Hin). lia.
Qed.

Lemma absent_others (id : Z) (us : list User) :
  ~ In id (map ID us) <-> Forall (other_than id) us.
Proof.
  split; [apply scan_absent|].
  intros Hall Hin. apply in_map_iff in Hin. destruct Hin as (x & Hx & Hin).
  exact (proj1 (Forall_forall _ _) Hall x Hin Hx).
Qed.

(** ** The store of the in-memory service along a run *)

Section InMemoryStore.

Import InMemory.
Variable Decode : string -> option User.

Lemma run_counter (rs : list Request) :
  forall (s : Store) (c : Z),
    nextID s = wrap c ->
    nextID (snd (run Decode s rs)) = wrap (c + Z.of_nat (allocations Decode rs)).
Proof.
  induction rs as [|r rs IH]; intros s c Hs.
  - simpl. now rewrite Z.add_0_r.
  - rewrite run_cons, allocations_cons. cbn [snd].
    destruct (serve_counter Decode s r) as [(Ha & _ & Hn)|(Ha & _ & Hn)]; rewrite Ha.
    + apply IH. congruence.
    + rewrite (IH _ (c + 1)).
      * f_equal. lia.
      * rewrite Hn, Hs. apply wrap_wrap_succ.
Qed.

(** One request keeps the ids increasing and below the counter. *)
Lemma serve_ids_within (s : Store) (r : Request) (c : Z) :
  nextID s = wrap c -> 1 <= c ->
  c + Z.of_nat (allocations Decode [r]) <= max_int + 1 ->
  ids_within c (map ID (users s)) ->
  ids_within (c + Z.of_nat (allocations Decode [r])) (map ID (users (snd (serve Decode s r))))
  /\ nextID (snd (serve Decode s r)) = wrap (c + Z.of_nat (allocations Decode [r])).
Proof.
  intros Hs Hc Hb Hin.
  destruct r as [|body|idStr|idStr body|idStr]; cbn [serve allocations] in *.
  - rewrite Z.add_0_r. auto.
  - unfold createUser. destruct (Decode body) as [decoded|]; cbn [snd users nextID].
    + assert (Hw : wrap c = c) by (apply wrap_in_range; unfold min_int in *; lia).
      rewrite map_app, Hs, Hw. cbn [map ID]. split.
      * replace (Z.of_nat 1) with 1 by reflexivity. now apply ids_within_snoc.
      * reflexivity.
    + rewrite Z.add_0_r. auto.
  - rewrite Z.add_0_r. unfold getUser. destruct (Atoi idStr); [|auto].
    destruct (scan _ _ _) as [[? ?]|]; auto.
  - rewrite Z.add_0_r. unfold updateUser. destruct (Decode body); [|auto].
    destruct (Atoi idStr); [|auto].
    destruct (scan _ _ _) as [[i ?]|]; [|auto]. cbn [users].
    destruct (nth_error _ i); cbn [snd users nextID]; rewrite assign_ids; auto.
  - rewrite Z.add_0_r. unfold deleteUser. destruct (Atoi idStr) as [id|]; [|auto].
    destruct (scan id (users s) 0) as [[i u]|] eqn:Hscan; [|auto].
    destruct (scan_found id _ _ _ _ Hscan) as (l1 & l2 & Hus & _ & _ & ->).
    cbn [snd users nextID Nat.add]. rewrite Hus, cut_at. split; [|exact Hs].
    rewrite Hus, map_app in Hin. cbn [map] in Hin. rewrite map_app.
    exact (proj1 (ids_within_remove _ _ _ _ Hin)).
Qed.

Lemma run_ids_within (rs : list Request) :
  forall (s : Store) (c : Z),
    nextID s = wrap c -> 1 <= c ->
    c + Z.of_nat (allocations Decode rs) <= max_int + 1 ->
    ids_within c (map ID (users s)) ->
    ids_within (c + Z.of_nat (allocations Decode rs)) (map ID (users (snd (run Decode s rs)))).
Proof.
  induction rs as [|r rs IH]; intros s c Hs Hc Hb Hin.
  - simpl. now rewrite Z.add_0_r.
  - rewrite run_cons. cbn [snd]. rewrite allocations_cons in *.
    rewrite Nat2Z.inj_add in *.
    destruct (serve_ids_within s r c Hs Hc) as [Hin1 Hs1]; [lia|exact Hin|].
    rewrite Z.add_assoc. apply IH; [exact Hs1|lia|lia|exact Hin1].
Qed.

End InMemoryStore.

(** X1. In the in-memory service the counter moves with the creates whose
    payload decodes and with nothing else: after any requests from the empty
    store, [nextID] is 1 plus their number, wrapped to an [int]. *)
Theorem counter_counts_creations :
  forall (Decode : string -> option User) (rs : list InMemory.Request),
    InMemory.nextID (snd (InMemory.run Decode InMemory.init rs))
    = wrap (1 + Z.of_nat (InMemory.allocations Decode rs)).
Proof. intros Decode rs. now apply run_counter. Qed.

(** X2. In the in-memory service started from the empty store, while at most
    [max_int] creates have reached the allocator, the records are in strictly
    increasing order of id (so [GET /users] lists them by id), no two have the
    same id, and every id lies between 1 and the number of those creates. *)
Theorem in_memory_ids_unique :
  forall (Decode : string -> option User) (rs : list InMemory.Request),
    Z.of_nat (InMemory.allocations Decode rs) <= max_int ->
    StronglySorted Z.lt (map ID (InMemory.users (snd (InMemory.run Decode InMemory.init rs))))
    /\ NoDup (map ID (InMemory.users (snd (InMemory.run Decode InMemory.init rs))))
    /\ Forall (fun u => 1 <= ID u <= Z.of_nat (InMemory.allocations Decode rs))
         (InMemory.users (snd (InMemory.run Decode InMemory.init rs))).
Proof.
  intros Decode rs Hb.
  assert (H : ids_within (1 + Z.of_nat (InMemory.allocations Decode rs))
                (map ID (InMemory.users (snd (InMemory.run Decode InMemory.init rs))))).
  { apply run_ids_within; [reflexivity|lia|lia|]. split; constructor. }
  split; [exact (proj1 H)|]. split; [exact (ids_within_NoDup _ _ H)|].
  destruct H as [_ Hr]. apply Forall_forall. intros u Hu.
  pose proof (proj1 (Forall_forall _ _) Hr (ID u) (in_map ID _ _ Hu)) as Hi.
  cbv beta in Hi. lia.
Qed.

Lemma in_memory_ids_unique_witness :
  StronglySorted Z.lt
    (map ID (InMemory.users (snd (InMemory.run Sample.Decode InMemory.init
       [InMemory.PostUsers "{name:Bob,age:41}"; InMemory.PostUsers "{id:7,name:Ann,age:30}";
        InMemory.DeleteUser "1"; InMemory.PostUsers "{name:Ann,age:31}"]))))
  /\ NoDup
       (map ID (InMemory.users (snd (InMemory.run Sample.Decode InMemory.init
          [InMemory.PostUsers "{name:Bob,age:41}"; InMemory.PostUsers "{id:7,name:Ann,age:30}";
           InMemory.DeleteUser "1"; InMemory.PostUsers "{name:Ann,age:31}"]))))
  /\ Forall (fun u => 1 <= ID u <= 3)
       (InMemory.users (snd (InMemory.run Sample.Decode InMemory.init
          [InMemory.PostUsers "{name:Bob,age:41}"; InMemory.PostUsers "{id:7,name:Ann,age:30}";
           InMemory.DeleteUser "1"; InMemory.PostUsers "{name:Ann,age:31}"]))).
Proof.
  apply (in_memory_ids_unique Sample.Decode
           [InMemory.PostUsers "{name:Bob,age:41}"; InMemory.PostUsers "{id:7,name:Ann,age:30}";
            InMemory.DeleteUser "1"; InMemory.PostUsers "{name:Ann,age:31}"]).
  vm_compute. discriminate.
Defined.

(** X3. In the in-memory service a request that is answered with an error status
    (400 or 404) leaves the store exactly as it was. *)
Theorem in_memory_errors_change_nothing :
  forall (Decode : string -> option User) (s : InMemory.Store) (r : InMemory.Request)
         (resp : Response),
    fst (InMemory.serve Decode s r) = Responded resp -> 400 <= Status resp ->
    snd (InMemory.serve Decode s r) = s.
Proof.
  intros Decode s r resp H Hst.
  destruct r as [|body|idStr|idStr body|idStr]; cbn [InMemory.serve] in *.
  - reflexivity.
  - unfold InMemory.createUser in *. destruct (Decode body); [|reflexivity].
    injection H as <-. simpl in Hst. unfold StatusCreated in Hst. lia.
  - unfold InMemory.getUser in *. destruct (Atoi idStr); [|reflexivity].
    destruct (scan _ _ _) as [[? ?]|]; reflexivity.
  - unfold InMemory.updateUser in *. destruct (Decode body); [|reflexivity].
    destruct (Atoi idStr); [|reflexivity].
    destruct (scan _ _ _) as [[i ?]|]; [|reflexivity].
    cbn [InMemory.users] in *. destruct (nth_error _ i); [|discriminate H].
    injection H as <-. simpl in Hst. unfold StatusOK in Hst. lia.
  - unfold InMemory.deleteUser in *. destruct (Atoi idStr); [|reflexivity].
    destruct (scan _ _ _) as [[? ?]|]; [|reflexivity].
    injection H as <-. simpl in Hst. unfold StatusNoContent in Hst. lia.
Qed.

Lemma in_memory_errors_change_nothing_witness :
  snd (InMemory.serve Sample.Decode (InMemory.mkStore [mkUser 1 "Ann" 30] 2)
         (InMemory.PutUser "5" "{name:Bob,age:41}"))
  = InMemory.mkStore [mkUser 1 "Ann" 30] 2.
Proof.
  apply (in_memory_errors_change_nothing Sample.Decode (InMemory.mkStore [mkUser 1 "Ann" 30] 2)
           (InMemory.PutUser "5" "{name:Bob,age:41}")
           (httpError "User not found" StatusNotFound)).
  - reflexivity.
  - vm_compute. discriminate.
Defined.

(** X4. The in-memory delete of a valid id either finds no record of that id,
    answers 404 and leaves the store as it was, or answers 204 and removes
    exactly the first record of that id, leaving every other record, a later
    record of the same id included, in its order. *)
Theorem in_memory_delete_removes_first :
  forall (s : InMemory.Store) (idStr : string) (id : Z),
    Atoi idStr = Some id ->
    (~ In id (map ID (InMemory.users s))
     /\ InMemory.deleteUser s idStr
        = (Responded (httpError "User not found" StatusNotFound), s))
    \/ (exists l1 u l2,
           InMemory.users s = l1 ++ u :: l2 /\ Forall (other_than id) l1 /\ ID u = id
           /\ InMemory.deleteUser s idStr
              = (Responded (mkResponse StatusNoContent Empty),
                 InMemory.mkStore (l1 ++ l2) (InMemory.nextID s))).
Proof.
  intros s idStr id HA. unfold InMemory.deleteUser. rewrite HA.
  destruct (scan id (InMemory.users s) 0) as [[i u]|] eqn:Hscan.
  - right. destruct (scan_found id _ _ _ _ Hscan) as (l1 & l2 & Hus & Hl1 & Hu & ->).
    exists l1, u, l2. repeat split; auto.
    cbn [Nat.add]. now rewrite Hus, cut_at.
  - left. split; [|reflexivity].
    apply absent_others. exact (scan_missing id _ _ Hscan).
Qed.

Lemma in_memory_delete_removes_first_witness :
  (~ In 1 (map ID [mkUser 1 "Ann" 30; mkUser 2 "Bob" 41; mkUser 1 "Cy" 25])
   /\ InMemory.deleteUser
        (InMemory.mkStore [mkUser 1 "Ann" 30; mkUser 2 "Bob" 41; mkUser 1 "Cy" 25] 3) "1"
      = (Responded (httpError "User not found" StatusNotFound),
         InMemory.mkStore [mkUser 1 "Ann" 30; mkUser 2 "Bob" 41; mkUser 1 "Cy" 25] 3))
  \/ (exists l1 u l2,
         [mkUser 1 "Ann" 30; mkUser 2 "Bob" 41; mkUser 1 "Cy" 25] = l1 ++ u :: l2
         /\ Forall (other_than 1) l1 /\ ID u = 1
         /\ InMemory.deleteUser
              (InMemory.mkStore [mkUser 1 "Ann" 30; mkUser 2 "Bob" 41; mkUser 1 "Cy" 25] 3) "1"
            = (Responded (mkResponse StatusNoContent Empty), InMemory.mkStore (l1 ++ l2) 3)).
Proof.
  apply (in_memory_delete_removes_first
           (InMemory.mkStore [mkUser 1 "Ann" 30; mkUser 2 "Bob" 41; mkUser 1 "Cy" 25] 3) "1" 1).
  reflexivity.
Defined.

(** X5. A [get] of the id that a create has just returned answers 200 with the
    created record, when no record of the store had that id before; in both
    revisions (in the mirrored one, when the insert succeeded). *)
Theorem get_after_create :
  (forall (Decode : string -> option User) (s : InMemory.Store)
          (body idStr : string) (decoded : User),
      Decode body = Some decoded -> Atoi idStr = Some (InMemory.nextID s) ->
      ~ In (InMemory.nextID s) (map ID (InMemory.users s)) ->
      fst (InMemory.getUser (snd (InMemory.createUser Decode s body)) idStr)
      = Responded (mkResponse StatusOK
                     (JSONUser (mkUser (InMemory.nextID s) (Name decoded) (Age decoded)))))
  /\ (forall (Mirror : Type) (InsertOne : Mirror -> User -> Mirrored.InsertResult * Mirror)
             (Decode : string -> option User) (w : Mirrored.World Mirror)
             (body idStr : string) (decoded : User) (m : Mirror),
      Decode body = Some decoded -> Atoi idStr = Some (Mirrored.nextID w) ->
      InsertOne (Mirrored.mirror w) (mkUser (Mirrored.nextID w) (Name decoded) (Age decoded))
      = (Mirrored.InsertOK, m) ->
      ~ In (Mirrored.nextID w) (map ID (Mirrored.users w)) ->
      fst (Mirrored.getUser Mirror
             (snd (Mirrored.createUser Mirror InsertOne Decode w body)) idStr)
      = Responded (mkResponse StatusOK
                     (JSONUser (mkUser (Mirrored.nextID w) (Name decoded) (Age decoded))))).
Proof.
  split.
  - intros Decode s body idStr decoded HD HA Habs.
    rewrite (createUser_decoded Decode s body decoded HD). cbn [snd].
    rewrite getUser_first with (id := InMemory.nextID s) (l1 := InMemory.users s) (l2 := [])
                               (u := mkUser (InMemory.nextID s) (Name decoded) (Age decoded));
      auto.
    now apply scan_absent.
  - intros Mirror InsertOne Decode w body idStr decoded m HD HA HI Habs.
    rewrite (createUser_inserted Mirror InsertOne Decode w body decoded m HD HI). cbn [snd].
    rewrite mirrored_getUser_first
      with (id := Mirrored.nextID w) (l1 := Mirrored.users w) (l2 := [])
           (u := mkUser (Mirrored.nextID w) (Name decoded) (Age decoded)); auto.
    now apply scan_absent.
Qed.

Lemma get_after_create_witness :
  fst (InMemory.getUser
         (snd (InMemory.createUser Sample.Decode (InMemory.mkStore [mkUser 1 "Bob" 41] 2)
                 "{id:7,name:Ann,age:30}")) "2")
  = Responded (mkResponse StatusOK (JSONUser (mkUser 2 "Ann" 30)))
  /\ fst (Mirrored.getUser Sample.Collection
            (snd (Mirrored.createUser Sample.Collection Sample.InsertOne Sample.Decode
                    (Mirrored.mkWorld [mkUser 1 "Bob" 41] 2
                       (Sample.mkCollection [mkUser 1 "Bob" 41] true))
                    "{id:7,name:Ann,age:30}")) "2")
     = Responded (mkResponse StatusOK (JSONUser (mkUser 2 "Ann" 30))).
Proof.
  split.
  - apply (proj1 get_after_create Sample.Decode (InMemory.mkStore [mkUser 1 "Bob" 41] 2)
             "{id:7,name:Ann,age:30}" "2" (mkUser 7 "Ann" 30)).
    + reflexivity.
    + reflexivity.
    + simpl. intros [H|[]]. discriminate H.
  - apply (proj2 get_after_create Sample.Collection Sample.InsertOne Sample.Decode
             (Mirrored.mkWorld [mkUser 1 "Bob" 41] 2 (Sample.mkCollection [mkUser 1 "Bob" 41] true))
             "{id:7,name:Ann,age:30}" "2" (mkUser 7 "Ann" 30)
             (Sample.mkCollection [mkUser 1 "Bob" 41; mkUser 2 "Ann" 30] true)).
    + reflexivity.
    + reflexivity.
    + reflexivity.
    + simpl. intros [H|[]]. discriminate H.
Defined.

Lemma updateUser_frame (Decode : string -> option User) (s : InMemory.Store)
      (idStr body : string) :
  fst (InMemory.updateUser Decode s idStr body) <> Panicked
  /\ map ID (InMemory.users (snd (InMemory.updateUser Decode s idStr body)))
     = map ID (InMemory.users s)
  /\ InMemory.nextID (snd (InMemory.updateUser Decode s idStr body)) = InMemory.nextID s.
Proof.
  unfold InMemory.updateUser.
  destruct (Decode body) as [upd|]; [|repeat split; discriminate].
  destruct (Atoi idStr) as [id|]; [|repeat split; discriminate].
  destruct (scan id (InMemory.users s) 0) as [[i u]|] eqn:Hscan;
    [|repeat split; discriminate].
  destruct (scan_found id _ _ _ _ Hscan) as (l1 & l2 & Hus & _ & _ & ->).
  cbn [InMemory.users Nat.add]. rewrite Hus, assign_at, nth_error_at.
  cbn [fst snd InMemory.users InMemory.nextID].
  repeat split; [discriminate|]. rewrite !map_app. reflexivity.
Qed.

Lemma mirrored_updateUser_frame (Mirror : Type) (Decode : string -> option User)
      (w : Mirrored.World Mirror) (idStr body : string) :
  fst (Mirrored.updateUser Mirror Decode w idStr body) <> Panicked
  /\ map ID (Mirrored.users (snd (Mirrored.updateUser Mirror Decode w idStr body)))
     = map ID (Mirrored.users w)
  /\ Mirrored.nextID (snd (Mirrored.updateUser Mirror Decode w idStr body))
     = Mirrored.nextID w.
Proof.
  unfold Mirrored.updateUser.
  destruct (Decode body) as [upd|]; [|repeat split; discriminate].
  destruct (Atoi idStr) as [id|]; [|repeat split; discriminate].
  destruct (scan id (Mirrored.users w) 0) as [[i u]|] eqn:Hscan;
    [|repeat split; discriminate].
  destruct (scan_found id _ _ _ _ Hscan) as (l1 & l2 & Hus & _ & _ & ->).
  cbn [Mirrored.users Nat.add]. rewrite Hus, assign_at, nth_error_at.
  cbn [fst snd Mirrored.users Mirrored.nextID].
  repeat split; [discriminate|]. rewrite !map_app. reflexivity.
Qed.

(** X6. Whatever the id, the payload and the store, [updateUser] never panics
    (the index it writes at is the one its scan found), and it leaves the ids
    of the records, their number and order, and the counter as they were; in
    both revisions. *)
Theorem update_keeps_ids :
  (forall (Decode : string -> option User) (s : InMemory.Store) (idStr body : string),
      fst (InMemory.updateUser Decode s idStr body) <> Panicked
      /\ map ID (InMemory.users (snd (InMemory.updateUser Decode s idStr body)))
         = map ID (InMemory.users s)
      /\ InMemory.nextID (snd (InMemory.updateUser Decode s idStr body)) = InMemory.nextID s)
  /\ (forall (Mirror : Type) (Decode : string -> option User) (w : Mirrored.World Mirror)
             (idStr body : string),
      fst (Mirrored.updateUser Mirror Decode w idStr body) <> Panicked
      /\ map ID (Mirrored.users (snd (Mirrored.updateUser Mirror Decode w idStr body)))
         = map ID (Mirrored.users w)
      /\ Mirrored.nextID (snd (Mirrored.updateUser Mirror Decode w idStr body))
         = Mirrored.nextID w).
Proof.
  split.
  - exact updateUser_frame.
  - exact mirrored_updateUser_frame.
Qed.

(** ** The loop of the mirrored [deleteUser] on any store *)

Section SweepAnyStore.

Import Mirrored.
Variable id : Z.

Lemma slice_split (s : Slice) (i : nat) :
  (S i <= len s)%nat -> (len s <= List.length (array s))%nat ->
  exists A x B C,
    array s = A ++ x :: B ++ C /\ List.length A = i
    /\ len s = (List.length A + S (List.length B))%nat.
Proof.
  intros Hi Hlen.
  pose proof (firstn_skipn i (array s)) as E1.
  assert (HA : List.length (firstn i (array s)) = i) by (rewrite length_firstn; lia).
  destruct (skipn i (array s)) as [|x R] eqn:ER.
  - apply (f_equal (@List.length User)) in E1.
    rewrite length_app, HA in E1. simpl in E1. lia.
  - pose proof (firstn_skipn (len s - S i) R) as E2.
    assert (HR : List.length R = (List.length (array s) - S i)%nat).
    { apply (f_equal (@List.length User)) in E1.
      rewrite length_app, HA in E1. simpl in E1. lia. }
    exists (firstn i (array s)), x, (firstn (len s - S i) R), (skipn (len s - S i) R).
    rewrite E2, E1, HA. repeat split.
    rewrite length_firstn. lia.
Qed.

Lemma remove_at_split (A B C : list User) (x : User) :
  remove_at (List.length A) (mkSlice (A ++ x :: B ++ C) (List.length A + S (List.length B)))
  = Some (mkSlice (A ++ B ++ skipn (List.length B) (x :: B) ++ C)
                  (List.length A + List.length B)).
Proof.
  unfold remove_at. cbn [len array].
  destruct (Nat.leb_spec (S (List.length A)) (List.length A + S (List.length B))) as [_|H];
    [|lia].
  f_equal. f_equal; [|lia].
  rewrite firstn_exact. f_equal.
  replace (S (List.length A)) with (List.length A + 1)%nat by lia.
  rewrite skipn_past. cbn [skipn].
  replace (List.length A + S (List.length B) - (List.length A + 1))%nat
    with (List.length B) by lia.
  rewrite firstn_exact. f_equal.
  replace (List.length A + S (List.length B) - 1)%nat
    with (List.length A + List.length B)%nat by lia.
  rewrite skipn_past.
  change (x :: B ++ C) with ((x :: B) ++ C).
  rewrite skipn_app. cbn [List.length].
  replace (List.length B - S (List.length B))%nat with 0%nat by lia.
  reflexivity.
Qed.

(** What one removal does to [users] and to the backing array. *)
Lemma remove_at_elems (s s' : Slice) (i : nat) (u : User) :
  remove_at i s = Some s' -> (len s <= List.length (array s))%nat ->
  nth_error (array s) i = Some u ->
  exists A B,
    elems s = A ++ u :: B /\ elems s' = A ++ B
    /\ List.length (array s') = List.length (array s)
    /\ S (len s') = len s
    /\ ((len s < List.length (array s))%nat ->
        nth_error (array s') (List.length (array s) - 1)
        = nth_error (array s) (List.length (array s) - 1)).
Proof.
  intros Hr Hlen Hi.
  assert (Hle : (S i <= len s)%nat).
  { unfold remove_at in Hr. destruct (Nat.leb_spec (S i) (len s)); [assumption|discriminate]. }
  destruct (slice_split s i Hle Hlen) as (A & x & B & C & Harr & HA & Hl).
  destruct s as [arr l]. cbn [array len] in *. subst arr l i.
  rewrite nth_error_at in Hi. injection Hi as ->.
  rewrite remove_at_split in Hr. injection Hr as <-.
  exists A, B. unfold elems. cbn [array len].
  assert (Hk : List.length (skipn (List.length B) (u :: B)) = 1%nat)
    by (rewrite length_skipn; cbn [List.length]; lia).
  repeat split.
  - replace (A ++ u :: B ++ C) with ((A ++ u :: B) ++ C)
      by (rewrite <- app_assoc; reflexivity).
    replace (List.length A + S (List.length B))%nat with (List.length (A ++ u :: B))
      by (rewrite length_app; reflexivity).
    apply firstn_exact.
  - rewrite app_assoc, <- length_app. apply firstn_exact.
  - rewrite !length_app, Hk. simpl. rewrite length_app. lia.
  - lia.
  - intros HC. rewrite !length_app in HC. cbn [List.length] in HC. rewrite length_app in HC.
    assert (HCpos : (1 <= List.length C)%nat) by lia.
    rewrite !length_app. cbn [List.length]. rewrite length_app.
    rewrite (app_assoc A B), (app_assoc (A ++ B)).
    rewrite nth_error_app2 by (rewrite !length_app, Hk; lia).
    replace (A ++ u :: B ++ C) with ((A ++ u :: B) ++ C)
      by (rewrite <- app_assoc; reflexivity).
    rewrite (nth_error_app2 (A ++ u :: B)) by (rewrite length_app; simpl; lia).
    f_equal. rewrite !length_app, Hk. simpl. lia.
Qed.

(** The loop only takes out records of id [id]: what [users] holds of other
    ids is the same, in the same order, when the loop ends or panics. *)
Lemma sweep_keeps_others (n : nat) :
  forall (i : nat) (s : Slice),
    (len s <= List.length (array s))%nat ->
    match sweep id n i s with
    | Through s' | Panic s' => others id (elems s') = others id (elems s)
    end.
Proof.
  induction n as [|n IH]; intros i s Hlen; cbn [sweep]; [reflexivity|].
  destruct (nth_error (array s) i) as [u|] eqn:Hi; [|reflexivity].
  destruct (Z.eqb_spec (ID u) id) as [E|_].
  - destruct (remove_at i s) as [s1|] eqn:Hr; [|reflexivity].
    destruct (remove_at_elems s s1 i u Hr Hlen Hi) as (A & B & Hs & Hs1 & Harr & Hl & _).
    specialize (IH (S i) s1). rewrite Harr in IH.
    assert (H1 : (len s1 <= List.length (array s))%nat) by lia.
    specialize (IH H1).
    rewrite Hs, (others_drop id A B u E), <- Hs1. exact IH.
  - apply IH. exact Hlen.
Qed.

(** Once [users] is shorter than the span of the [range], a record of id [id]
    in the last cell makes the loop panic when it gets there, if not before. *)
Lemma sweep_panics (n : nat) :
  forall (i : nat) (s : Slice) (v : User),
    (i + S n = List.length (array s))%nat ->
    nth_error (array s) (List.length (array s) - 1) = Some v -> ID v = id ->
    (len s < List.length (array s))%nat ->
    exists s', sweep id (S n) i s = Panic s'.
Proof.
  induction n as [|n IH]; intros i s v Hn Hv Hid Hlen.
  - cbn [sweep]. replace (List.length (array s) - 1)%nat with i in Hv by lia.
    rewrite Hv, Hid, Z.eqb_refl. unfold remove_at.
    destruct (Nat.leb_spec (S i) (len s)); [lia|]. now exists s.
  - change (sweep id (S (S n)) i s)
      with (match nth_error (array s) i with
            | None => Panic s
            | Some user =>
                if ID user =? id then
                  match remove_at i s with
                  | Some s' => sweep id (S n) (S i) s'
                  | None => Panic s
                  end
                else sweep id (S n) (S i) s
            end).
    destruct (nth_error (array s) i) as [u|] eqn:Hi; [|now exists s].
    destruct (ID u =? id).
    + destruct (remove_at i s) as [s1|] eqn:Hr; [|now exists s].
      destruct (remove_at_elems s s1 i u Hr (Nat.lt_le_incl _ _ Hlen) Hi)
        as (_ & _ & _ & _ & Harr & Hl & Hlast).
      apply (IH (S i) s1 v); rewrite ?Harr; try lia.
      rewrite Hlast; assumption.
    + apply (IH (S i) s v); try assumption. lia.
Qed.

End SweepAnyStore.

(** ** The mirrored [deleteUser] on any store *)

Section MirroredDelete.

Import Mirrored.
Variable Mirror : Type.
Variable DeleteOne : Mirror -> Z -> DeleteResult * Mirror.
Variable Decode : string -> option User.

Lemma elems_whole (us : list User) : elems (mkSlice us (List.length us)) = us.
Proof. unfold elems. cbn [len array]. apply firstn_all. Qed.

Lemma deleteUser_others (w : World Mirror) (body : string) (decoded : User) :
  Decode body = Some decoded ->
  others (ID decoded) (users (snd (deleteUser Mirror DeleteOne Decode w body)))
  = others (ID decoded) (users w)
  /\ nextID (snd (deleteUser Mirror DeleteOne Decode w body)) = nextID w.
Proof.
  intros HD. unfold deleteUser. rewrite HD.
  destruct (DeleteOne (mirror w) (ID decoded)) as [[|count] m]; [auto|].
  destruct (count >? 0); [|auto].
  pose proof (sweep_keeps_others (ID decoded) (List.length (users w)) 0
                (mkSlice (users w) (List.length (users w))) (Nat.le_refl _)) as H.
  rewrite elems_whole in H.
  destruct (sweep _ _ _ _); auto.
Qed.

Lemma last_cell (u v : User) (l2 : list User) :
  skipn (List.length (l2 ++ [v])) (u :: l2 ++ [v]) = [v].
Proof.
  change (u :: l2 ++ [v]) with ((u :: l2) ++ [v]).
  rewrite length_app. cbn [List.length].
  replace (List.length l2 + 1)%nat with (List.length (u :: l2) + 0)%nat
    by (cbn [List.length]; lia).
  now rewrite skipn_past.
Qed.

Local Ltac lengths := repeat (rewrite length_app; cbn [List.length]); cbn [List.length]; lia.

Lemma sweep_panics_on_last (id : Z) (l : list User) (v : User) :
  In id (map ID l) -> ID v = id ->
  exists s,
    sweep id (List.length (l ++ [v])) 0 (mkSlice (l ++ [v]) (List.length (l ++ [v])))
    = Panic s.
Proof.
  intros Hin Hv.
  destruct (first_with_id id l Hin) as (l1 & u & l2 & -> & Hu & Hl1).
  rewrite <- app_assoc. cbn [app].
  pose proof (sweep_others id l1 Hl1 [] (u :: l2 ++ [v])
                (List.length (l1 ++ u :: l2 ++ [v])) (S (List.length (l2 ++ [v])))) as Hpre.
  cbn [app List.length Nat.add] in Hpre.
  assert (E : (List.length l1 + S (List.length (l2 ++ [v])))%nat
              = List.length (l1 ++ u :: l2 ++ [v]))
    by (rewrite (length_app l1); reflexivity).
  rewrite E in Hpre. rewrite Hpre, <- E.
  cbn [sweep array]. rewrite nth_error_at, Hu, Z.eqb_refl.
  pose proof (remove_at_split l1 (l2 ++ [v]) [] u) as Hr.
  rewrite app_nil_r in Hr. rewrite Hr. rewrite last_cell, app_nil_r.
  rewrite length_app. cbn [List.length]. rewrite Nat.add_1_r.
  apply (sweep_panics id (List.length l2) (S (List.length l1)) _ v); cbn [array len].
  - lengths.
  - rewrite (app_assoc l1 (l2 ++ [v]) [v]).
    replace (List.length ((l1 ++ l2 ++ [v]) ++ [v]) - 1)%nat
      with (List.length (l1 ++ l2 ++ [v])) by lengths.
    apply nth_error_at.
  - exact Hv.
  - lengths.
Qed.

End MirroredDelete.

(** X7. Whatever the store holds and whatever the collection answers, the
    mirrored delete of an id takes out of [users] only records of that id: the
    records of every other id are all still there, in the same order, and the
    counter is as it was; this also when the loop panics. *)
Theorem mirrored_delete_keeps_other_ids :
  forall (Mirror : Type) (DeleteOne : Mirror -> Z -> Mirrored.DeleteResult * Mirror)
         (Decode : string -> option User) (w : Mirrored.World Mirror)
         (body : string) (decoded : User),
    Decode body = Some decoded ->
    others (ID decoded)
      (Mirrored.users (snd (Mirrored.deleteUser Mirror DeleteOne Decode w body)))
    = others (ID decoded) (Mirrored.users w)
    /\ Mirrored.nextID (snd (Mirrored.deleteUser Mirror DeleteOne Decode w body))
       = Mirrored.nextID w.
Proof. intros. now apply deleteUser_others. Qed.

Lemma mirrored_delete_keeps_other_ids_witness :
  others 1
    (Mirrored.users (snd (Mirrored.deleteUser Sample.Collection Sample.DeleteOne Sample.Decode
       (Mirrored.mkWorld [mkUser 2 "Bob" 41; mkUser 1 "Ann" 30; mkUser 3 "Cy" 25; mkUser 1 "Ann" 31] 4
          (Sample.mkCollection [mkUser 1 "Ann" 30] true)) "{id:1}")))
  = others 1 [mkUser 2 "Bob" 41; mkUser 1 "Ann" 30; mkUser 3 "Cy" 25; mkUser 1 "Ann" 31]
  /\ Mirrored.nextID (snd (Mirrored.deleteUser Sample.Collection Sample.DeleteOne Sample.Decode
       (Mirrored.mkWorld [mkUser 2 "Bob" 41; mkUser 1 "Ann" 30; mkUser 3 "Cy" 25; mkUser 1 "Ann" 31] 4
          (Sample.mkCollection [mkUser 1 "Ann" 30] true)) "{id:1}"))
     = 4.
Proof.
  apply (mirrored_delete_keeps_other_ids Sample.Collection Sample.DeleteOne Sample.Decode
           (Mirrored.mkWorld
              [mkUser 2 "Bob" 41; mkUser 1 "Ann" 30; mkUser 3 "Cy" 25; mkUser 1 "Ann" 31] 4
              (Sample.mkCollection [mkUser 1 "Ann" 30] true))
           "{id:1}" (mkUser 1 "" 0)).
  reflexivity.
Defined.

(** X8. In the mirrored service, when the last record of the store has the id
    to delete and an earlier record has it too, and the collection reports a
    positive count, the handler panics in [users[i+1:]]: the request gets no
    response, though a document has been deleted from the collection. *)
Theorem mirrored_delete_panics_on_repeated_id :
  forall (Mirror : Type) (DeleteOne : Mirror -> Z -> Mirrored.DeleteResult * Mirror)
         (Decode : string -> option User) (w : Mirrored.World Mirror)
         (body : string) (decoded : User) (count : Z) (m : Mirror)
         (l : list User) (v : User),
    Decode body = Some decoded ->
    DeleteOne (Mirrored.mirror w) (ID decoded) = (Mirrored.Deleted count, m) ->
    0 < count ->
    Mirrored.users w = l ++ [v] -> ID v = ID decoded -> In (ID decoded) (map ID l) ->
    fst (Mirrored.deleteUser Mirror DeleteOne Decode w body) = Panicked
    /\ Mirrored.mirror (snd (Mirrored.deleteUser Mirror DeleteOne Decode w body)) = m.
Proof.
  intros Mirror DeleteOne Decode w body decoded count m l v HD HM Hc Hus Hv Hin.
  unfold Mirrored.deleteUser. rewrite HD, HM.
  destruct (Z.gtb_spec count 0) as [_|H]; [|lia].
  rewrite Hus.
  destruct (sweep_panics_on_last (ID decoded) l v Hin Hv) as [s ->].
  split; reflexivity.
Qed.

Lemma mirrored_delete_panics_on_repeated_id_witness :
  fst (Mirrored.deleteUser Sample.Collection Sample.DeleteOne Sample.Decode
         (Mirrored.mkWorld [mkUser 1 "Ann" 30; mkUser 1 "Bob" 41] 2
            (Sample.mkCollection [mkUser 1 "Ann" 30; mkUser 1 "Bob" 41] true)) "{id:1}")
  = Panicked
  /\ Mirrored.mirror
       (snd (Mirrored.deleteUser Sample.Collection Sample.DeleteOne Sample.Decode
               (Mirrored.mkWorld [mkUser 1 "Ann" 30; mkUser 1 "Bob" 41] 2
                  (Sample.mkCollection [mkUser 1 "Ann" 30; mkUser 1 "Bob" 41] true)) "{id:1}"))
     = Sample.mkCollection [mkUser 1 "Bob" 41] true.
Proof.
  apply (mirrored_delete_panics_on_repeated_id Sample.Collection Sample.DeleteOne Sample.Decode
           (Mirrored.mkWorld [mkUser 1 "Ann" 30; mkUser 1 "Bob" 41] 2
              (Sample.mkCollection [mkUser 1 "Ann" 30; mkUser 1 "Bob" 41] true))
           "{id:1}" (mkUser 1 "" 0) 1 (Sample.mkCollection [mkUser 1 "Bob" 41] true)
           [mkUser 1 "Ann" 30] (mkUser 1 "Bob" 41)).
  - reflexivity.
  - reflexivity.
  - lia.
  - reflexivity.
  - reflexivity.
  - simpl. auto.
Defined.

(** ** The store of the mirrored service along a run *)

Section MirroredStore.

Import Mirrored.
Variable Mirror : Type.
Variable InsertOne : Mirror -> User -> InsertResult * Mirror.
Variable DeleteOne : Mirror -> Z -> DeleteResult * Mirror.
Variable Decode : string -> option User.

Local Ltac kept Hin := split; [discriminate|split; [exact Hin|try reflexivity; try assumption]].

(** On a store whose ids increase strictly, the delete does not panic and
    keeps them increasing. *)
Lemma deleteUser_ids_within (w : World Mirror) (body : string) (c : Z) :
  ids_within c (map ID (users w)) ->
  fst (deleteUser Mirror DeleteOne Decode w body) <> Panicked
  /\ ids_within c (map ID (users (snd (deleteUser Mirror DeleteOne Decode w body))))
  /\ nextID (snd (deleteUser Mirror DeleteOne Decode w body)) = nextID w.
Proof.
  intros Hin.
  destruct (Decode body) as [decoded|] eqn:HD;
    [|unfold deleteUser; rewrite HD; kept Hin].
  destruct (DeleteOne (mirror w) (ID decoded)) as [[|count] m] eqn:HM.
  - rewrite (deleteUser_mirror_error Mirror DeleteOne Decode w body decoded m HD HM).
    kept Hin.
  - destruct (Z.ltb_spec 0 count) as [Hc|Hc].
    + destruct (in_dec Z.eq_dec (ID decoded) (map ID (users w))) as [Hmem|Habs].
      * destruct (first_with_id _ _ Hmem) as (l1 & u & l2 & Hus & Hu & _).
        pose proof Hin as Hin'.
        rewrite Hus, map_app in Hin'. cbn [map] in Hin'. rewrite Hu in Hin'.
        destruct (ids_within_remove _ _ _ _ Hin') as [Hrest Hnot].
        rewrite <- map_app in Hrest, Hnot.
        assert (Honly : only_at (ID decoded) (users w) l1 l2).
        { exists u. repeat split; auto. now apply scan_absent. }
        rewrite (deleteUser_only Mirror DeleteOne Decode w body decoded count m l1 l2
                   HD HM Hc Honly).
        kept Hrest.
      * rewrite (deleteUser_deleted_absent Mirror DeleteOne Decode w body decoded count m
                   HD HM Hc (scan_absent _ _ Habs)).
        kept Hin.
    + unfold deleteUser. rewrite HD, HM.
      destruct (Z.gtb_spec count 0) as [H|_]; [lia|]. kept Hin.
Qed.

Lemma mirrored_serve_ids_within (w : World Mirror) (r : Request) (c : Z) :
  nextID w = wrap c -> 1 <= c ->
  c + Z.of_nat (allocations Decode [r]) <= max_int + 1 ->
  ids_within c (map ID (users w)) ->
  fst (serve Mirror InsertOne DeleteOne Decode w r) <> Panicked
  /\ ids_within (c + Z.of_nat (allocations Decode [r]))
       (map ID (users (snd (serve Mirror InsertOne DeleteOne Decode w r))))
  /\ nextID (snd (serve Mirror InsertOne DeleteOne Decode w r))
     = wrap (c + Z.of_nat (allocations Decode [r])).
Proof.
  intros Hs Hc Hb Hin.
  destruct r as [|body|idStr|idStr body|body]; cbn [serve allocations] in *.
  - rewrite Z.add_0_r. kept Hin.
  - unfold createUser. destruct (Decode body) as [decoded|].
    + assert (Hw : wrap c = c) by (apply wrap_in_range; unfold min_int in *; lia).
      replace (Z.of_nat 1) with 1 in * by reflexivity.
      destruct (InsertOne _ _) as [[|msg] m]; cbn [fst snd users nextID].
      * rewrite map_app, Hs, Hw. cbn [map ID].
        kept (ids_within_snoc c _ Hc Hin).
      * rewrite Hs, Hw.
        assert (Hc1 : c <= c + 1) by lia.
        kept (ids_within_weaken c (c + 1) _ Hc1 Hin).
    + rewrite Z.add_0_r. kept Hin.
  - rewrite Z.add_0_r. unfold getUser. destruct (Atoi idStr); [|kept Hin].
    destruct (scan _ _ _) as [[? ?]|]; kept Hin.
  - rewrite Z.add_0_r.
    destruct (mirrored_updateUser_frame Mirror Decode w idStr body) as (Hp & Hids & Hn).
    rewrite Hids, Hn. split; [exact Hp|split; [exact Hin|exact Hs]].
  - rewrite Z.add_0_r.
    destruct (deleteUser_ids_within w body c Hin) as (Hp & Hids & Hn).
    rewrite Hn. split; [exact Hp|split; [exact Hids|exact Hs]].
Qed.

Lemma mirrored_run_ids_within (rs : list Request) :
  forall (w : World Mirror) (c : Z),
    nextID w = wrap c -> 1 <= c ->
    c + Z.of_nat (allocations Decode rs) <= max_int + 1 ->
    ids_within c (map ID (users w)) ->
    ~ In Panicked (fst (run Mirror InsertOne DeleteOne Decode w rs))
    /\ ids_within (c + Z.of_nat (allocations Decode rs))
         (map ID (users (snd (run Mirror InsertOne DeleteOne Decode w rs)))).
Proof.
  induction rs as [|r rs IH]; intros w c Hs Hc Hb Hin.
  - simpl. rewrite Z.add_0_r. split; [tauto|exact Hin].
  - rewrite mirrored_allocations_cons, Nat2Z.inj_add in *.
    destruct (mirrored_serve_ids_within w r c Hs Hc) as (Hp & Hin1 & Hs1); [lia|exact Hin|].
    cbn [run]. destruct (serve Mirror InsertOne DeleteOne Decode w r) as [o w1].
    cbn [fst snd] in Hp, Hin1, Hs1.
    specialize (IH w1 (c + Z.of_nat (allocations Decode [r])) Hs1).
    rewrite <- Z.add_assoc in IH.
    destruct IH as [Hnp Hfin]; [lia|lia|exact Hin1|].
    destruct o as [resp| |].
    + destruct (run Mirror InsertOne DeleteOne Decode w1 rs) as [os w2].
      cbn [fst snd] in *. split; [|exact Hfin].
      intros [H|H]; [discriminate H|exact (Hnp H)].
    + cbn [fst snd]. split.
      * intros [H|[]]. discriminate H.
      * eapply ids_within_weaken; [|exact Hin1]. lia.
    + contradiction.
Qed.

End MirroredStore.

(** X9. Started on an empty collection, and while at most [max_int] creates have
    reached the allocator, the mirrored service never panics, whatever the
    collection answers to its calls, and its records stay in strictly
    increasing order of id, so no two have the same id. *)
Theorem mirrored_from_empty_is_safe :
  forall (Mirror : Type) InsertOne DeleteOne (Decode : string -> option User)
         (m : Mirror) (rs : list Mirrored.Request),
    Z.of_nat (Mirrored.allocations Decode rs) <= max_int ->
    ~ In Panicked (fst (Mirrored.run Mirror InsertOne DeleteOne Decode
                          (Mirrored.main Mirror [] m) rs))
    /\ StronglySorted Z.lt
         (map ID (Mirrored.users (snd (Mirrored.run Mirror InsertOne DeleteOne Decode
                                         (Mirrored.main Mirror [] m) rs))))
    /\ NoDup (map ID (Mirrored.users (snd (Mirrored.run Mirror InsertOne DeleteOne Decode
                                             (Mirrored.main Mirror [] m) rs)))).
Proof.
  intros Mirror InsertOne DeleteOne Decode m rs Hb.
  destruct (mirrored_run_ids_within Mirror InsertOne DeleteOne Decode rs
              (Mirrored.main Mirror [] m) 1) as [Hnp Hin].
  - reflexivity.
  - lia.
  - lia.
  - split; constructor.
  - split; [exact Hnp|]. split; [exact (proj1 Hin)|exact (ids_within_NoDup _ _ Hin)].
Qed.

Lemma mirrored_from_empty_is_safe_witness :
  ~ In Panicked
      (fst (Mirrored.run Sample.Collection Sample.InsertOne Sample.DeleteOne Sample.Decode
              (Mirrored.main Sample.Collection [] (Sample.mkCollection [] true))
              [Mirrored.PostUsers "{name:Bob,age:41}"; Mirrored.PostUsers "{name:Ann,age:31}";
               Mirrored.DeleteUser "{id:1}"; Mirrored.PostUsers "{id:7,name:Ann,age:30}"]))
  /\ StronglySorted Z.lt
       (map ID (Mirrored.users
          (snd (Mirrored.run Sample.Collection Sample.InsertOne Sample.DeleteOne Sample.Decode
                  (Mirrored.main Sample.Collection [] (Sample.mkCollection [] true))
                  [Mirrored.PostUsers "{name:Bob,age:41}"; Mirrored.PostUsers "{name:Ann,age:31}";
                   Mirrored.DeleteUser "{id:1}"; Mirrored.PostUsers "{id:7,name:Ann,age:30}"]))))
  /\ NoDup
       (map ID (Mirrored.users
          (snd (Mirrored.run Sample.Collection Sample.InsertOne Sample.DeleteOne Sample.Decode
                  (Mirrored.main Sample.Collection [] (Sample.mkCollection [] true))
                  [Mirrored.PostUsers "{name:Bob,age:41}"; Mirrored.PostUsers "{name:Ann,age:31}";
                   Mirrored.DeleteUser "{id:1}"; Mirrored.PostUsers "{id:7,name:Ann,age:30}"])))).
Proof.
  apply (mirrored_from_empty_is_safe Sample.Collection Sample.InsertOne Sample.DeleteOne
           Sample.Decode (Sample.mkCollection [] true)
           [Mirrored.PostUsers "{name:Bob,age:41}"; Mirrored.PostUsers "{name:Ann,age:31}";
            Mirrored.DeleteUser "{id:1}"; Mirrored.PostUsers "{id:7,name:Ann,age:30}"]).
  vm_compute. discriminate.
Defined.

(** X10. At startup the store holds exactly the documents the cursor yields, in
    the cursor's order and with the ids they carry, and the counter is 1
    whatever those ids are; [GET /users] then lists those documents. *)
Theorem main_loads_documents_as_they_are :
  forall (Mirror : Type) (docs : list User) (m : Mirror),
    Mirrored.main Mirror docs m = Mirrored.mkWorld docs 1 m
    /\ fst (Mirrored.getUsers Mirror (Mirrored.main Mirror docs m))
       = Responded (mkResponse StatusOK (JSONUsers docs)).
Proof.
  intros Mirror docs m.
  assert (H : Mirrored.main Mirror docs m = Mirrored.mkWorld docs 1 m).
  { unfold Mirrored.main. now rewrite bulkLoad_as_is. }
  split; [exact H|]. now rewrite H.
Qed.



(** X12. Through the routes of [main] behind [enableCORS], only a [POST] to
    [/users] and a [PUT] or [DELETE] to [/user] can change anything: every
    other method, [GET] and the [OPTIONS] preflight included, leaves the
    store, the counter and the collection as they were, and the response
    carries the three CORS headers. *)
Theorem only_writes_change_state :
  forall (Mirror : Type) InsertOne DeleteOne (Decode : string -> option User)
         (w : Mirrored.World Mirror) (r : Routes.Request),
    (Routes.Method r <> "POST" ->
     Routes.enableCORS Mirror (Routes.usersRoute Mirror InsertOne Decode) w r
     = (Routes.CORSHeaders,
        (fst (snd (Routes.enableCORS Mirror (Routes.usersRoute Mirror InsertOne Decode) w r)),
         w)))
    /\ (Routes.Method r <> "PUT" -> Routes.Method r <> "DELETE" ->
        Routes.enableCORS Mirror (Routes.userRoute Mirror DeleteOne Decode) w r
        = (Routes.CORSHeaders,
           (fst (snd (Routes.enableCORS Mirror (Routes.userRoute Mirror DeleteOne Decode) w r)),
            w))).
Proof.
  intros Mirror InsertOne DeleteOne Decode w r. split.
  - intros Hpost. unfold Routes.enableCORS, Routes.usersRoute.
    destruct (String.eqb_spec (Routes.Method r) "OPTIONS"); [reflexivity|].
    destruct (String.eqb_spec (Routes.Method r) "GET"); [reflexivity|].
    destruct (String.eqb_spec (Routes.Method r) "POST"); [contradiction|reflexivity].
  - intros Hput Hdel. unfold Routes.enableCORS, Routes.userRoute.
    destruct (String.eqb_spec (Routes.Method r) "OPTIONS"); [reflexivity|].
    destruct (String.eqb_spec (Routes.Method r) "GET").
    + unfold Mirrored.getUser. destruct (Atoi _); [|reflexivity].
      destruct (scan _ _ _) as [[? ?]|]; reflexivity.
    + destruct (String.eqb_spec (Routes.Method r) "PUT"); [contradiction|].
      destruct (String.eqb_spec (Routes.Method r) "DELETE"); [contradiction|reflexivity].
Qed.

Lemma only_writes_change_state_witness :
  Routes.enableCORS Sample.Collection
    (Routes.usersRoute Sample.Collection Sample.InsertOne Sample.Decode)
    (Mirrored.mkWorld [mkUser 1 "Ann" 30] 2 (Sample.mkCollection [mkUser 1 "Ann" 30] true))
    (Routes.mkRequest "OPTIONS" "" "{name:Bob,age:41}")
  = (Routes.CORSHeaders,
     (Responded (mkResponse StatusOK Empty),
      Mirrored.mkWorld [mkUser 1 "Ann" 30] 2 (Sample.mkCollection [mkUser 1 "Ann" 30] true)))
  /\ Routes.enableCORS Sample.Collection
       (Routes.userRoute Sample.Collection Sample.DeleteOne Sample.Decode)
       (Mirrored.mkWorld [mkUser 1 "Ann" 30] 2 (Sample.mkCollection [mkUser 1 "Ann" 30] true))
       (Routes.mkRequest "PATCH" "1" "{id:1}")
     = (Routes.CORSHeaders,
        (Responded (httpError "Method not allowed" Routes.StatusMethodNotAllowed),
         Mirrored.mkWorld [mkUser 1 "Ann" 30] 2 (Sample.mkCollection [mkUser 1 "Ann" 30] true))).
Proof.
  split.
  - apply (proj1 (only_writes_change_state Sample.Collection Sample.InsertOne Sample.DeleteOne
                    Sample.Decode
                    (Mirrored.mkWorld [mkUser 1 "Ann" 30] 2
                       (Sample.mkCollection [mkUser 1 "Ann" 30] true))
                    (Routes.mkRequest "OPTIONS" "" "{name:Bob,age:41}"))).
    discriminate.
  - apply (proj2 (only_writes_change_state Sample.Collection Sample.InsertOne Sample.DeleteOne
                    Sample.Decode
                    (Mirrored.mkWorld [mkUser 1 "Ann" 30] 2
                       (Sample.mkCollection [mkUser 1 "Ann" 30] true))
                    (Routes.mkRequest "PATCH" "1" "{id:1}"))).
    + discriminate.
    + discriminate.
Defined.

(** ** Counting the records of the in-memory store *)

Section InMemoryCount.

Import InMemory.
Variable Decode : string -> option User.

Lemma serve_count (s : Store) (r : Request) :
  (List.length (users (snd (serve Decode s r)))
   + answered StatusNoContent [fst (serve Decode s r)]
   = List.length (users s) + answered StatusCreated [fst (serve Decode s r)])%nat.
Proof.
  destruct r as [|body|idStr|idStr body|idStr]; cbn [serve].
  - reflexivity.
  - unfold createUser. destruct (Decode body); [|reflexivity].
    cbn [fst snd users]. rewrite length_app. simpl. lia.
  - unfold getUser. destruct (Atoi idStr); [|reflexivity].
    destruct (scan _ _ _) as [[? ?]|]; reflexivity.
  - destruct (updateUser_frame Decode s idStr body) as (_ & Hids & _).
    apply (f_equal (@List.length Z)) in Hids. rewrite !length_map in Hids. rewrite Hids.
    unfold updateUser. destruct (Decode body); [|reflexivity].
    destruct (Atoi idStr); [|reflexivity].
    destruct (scan _ _ _) as [[i ?]|]; [|reflexivity].
    cbn [users]. destruct (nth_error _ i); reflexivity.
  - unfold deleteUser. destruct (Atoi idStr) as [id|]; [|reflexivity].
    destruct (scan id (users s) 0) as [[i u]|] eqn:Hscan; [|reflexivity].
    destruct (scan_found id _ _ _ _ Hscan) as (l1 & l2 & Hus & _ & _ & ->).
    cbn [fst snd users Nat.add]. rewrite Hus, cut_at, !length_app. simpl. lia.
Qed.

Lemma answered_cons (code : Z) (o : Outcome) (os : list Outcome) :
  answered code (o :: os) = (answered code [o] + answered code os)%nat.
Proof.
  destruct o as [resp| |]; simpl; try reflexivity.
  now destruct (Status resp =? code).
Qed.

Lemma run_count (rs : list Request) :
  forall s : Store,
    (List.length (users (snd (run Decode s rs)))
     + answered StatusNoContent (fst (run Decode s rs))
     = List.length (users s) + answered StatusCreated (fst (run Decode s rs)))%nat.
Proof.
  induction rs as [|r rs IH]; intros s.
  - simpl. lia.
  - rewrite run_cons. cbn [fst snd].
    rewrite (answered_cons StatusNoContent), (answered_cons StatusCreated).
    pose proof (serve_count s r). pose proof (IH (snd (serve Decode s r))). lia.
Qed.

End InMemoryCount.

(** X13. In the in-memory service started from the empty store, the store
    holds, after any requests, as many records as creates were answered 201
    minus deletes answered 204: each of those adds or removes exactly one
    record, and nothing else changes the number of records. *)
Theorem in_memory_record_count :
  forall (Decode : string -> option User) (rs : list InMemory.Request),
    (List.length (InMemory.users (snd (InMemory.run Decode InMemory.init rs)))
     + answered StatusNoContent (fst (InMemory.run Decode InMemory.init rs))
     = answered StatusCreated (fst (InMemory.run Decode InMemory.init rs)))%nat.
Proof. intros Decode rs. exact (run_count Decode rs InMemory.init). Qed.
